(** * papersearch: a shallow embedding of [src/papersearch/server.py]

    The server exposes one tool.  [search_papers] either looks one paper up
    by its arXiv identifier or builds a boolean query, filters the stream of
    records by recency, scores them against the keywords, sorts and
    truncates; [format_papers] renders the list; [handle_call_tool] is the
    boundary that turns every exception into a text message.

    Conventions of the embedding:
    - a Python [str] is a [string] of bytes holding UTF-8 text, on which
      the substring test and the order of the date strings are those of
      the code points;
    - [str.lower] is the library's and is taken as given (the class
      [Py.Str]): nothing is assumed of it, and what is proved of the
      scoring holds for every such function; the closed examples run with
      the folding of the letters A-Z, which is [str.lower] on the ASCII
      text they use;
    - the class [\d] is modelled on the ASCII range, where it agrees with
      Python's: what is said of a string the pattern rejects is said of
      ASCII strings;
    - an [int] is a [Z];
    - a [float] is the rational number it denotes, in lowest terms (a
      [Q]); the quotient of two integers is rounded to the nearest binary64
      value, as Python's true division does;
    - a timezone-aware UTC [datetime] is its number of microseconds since
      the epoch, between [datetime.min] and [datetime.max]; [timedelta] and
      the subtraction raise [OverflowError] where Python's do;
    - an exception is a value of [exn], a computation that may raise
      returns a [result];
    - the remote service is a function from the request to the generator
      it yields, and the clock is the argument [now]. *)

From Stdlib Require Import ZArith QArith String Ascii List Bool Lia Lqa.
From Stdlib Require Import Qround Qabs Qpower Sorted Permutation DecimalString.
Import ListNotations.

Local Open Scope Z_scope.

(** ** Python builtins used by the server *)

Module Py.

Inductive exn : Type :=
| TypeError (msg : string)
| ValueError (msg : string)
| OverflowError (msg : string)
| Exception (msg : string).

(** [str(e)] *)
Definition str_of_exn (e : exn) : string :=
  match e with
  | TypeError msg | ValueError msg | OverflowError msg | Exception msg => msg
  end.

Inductive result (A : Type) : Type :=
| Ok (a : A)
| Raise (e : exn).
Arguments Ok {A} a.
Arguments Raise {A} e.

Definition bind {A B} (m : result A) (k : A -> result B) : result B :=
  match m with
  | Ok a => k a
  | Raise e => Raise e
  end.

(** The characters used to build literals *)
Definition dquote : string := String "034"%char EmptyString.
Definition squote : string := String "039"%char EmptyString.
Definition newline : string := String "010"%char EmptyString.

(** The message of the [TypeError] raised by [len(None)] *)
Definition none_has_no_len : string :=
  ("object of type " ++ squote ++ "NoneType" ++ squote ++ " has no len()")%string.

(** [len(x)] on an optional list: [None] has no length. *)
Definition len {A} (x : option (list A)) : result Z :=
  match x with
  | Some l => Ok (Z.of_nat (List.length l))
  | None => Raise (TypeError none_has_no_len)
  end.

(** Truth value of a string, of an optional string and of an optional list *)
Definition str_truthy (s : string) : bool :=
  match s with EmptyString => false | _ => true end.

Definition opt_str_truthy (s : option string) : bool :=
  match s with Some s => str_truthy s | None => false end.

Definition opt_list_truthy {A} (l : option (list A)) : bool :=
  match l with Some (_ :: _) => true | _ => false end.

(** [str.lower], as the library gives it *)
Class Str : Type := { lower : string -> string }.

(** The folding of the letters A-Z: [str.lower] on ASCII text *)
Definition lower_char (c : ascii) : ascii :=
  let n := nat_of_ascii c in
  if (65 <=? n)%nat && (n <=? 90)%nat then ascii_of_nat (n + 32) else c.

Fixpoint ascii_lower (s : string) : string :=
  match s with
  | EmptyString => EmptyString
  | String c s' => String (lower_char c) (ascii_lower s')
  end.

(** The closed examples, all on ASCII text, run with this one. *)
#[global] Instance ascii_str : Str | 100 := {| lower := ascii_lower |}.

(** [sub in s] on strings *)
Fixpoint str_in (sub s : string) : bool :=
  String.prefix sub s
  || match s with
     | EmptyString => false
     | String _ s' => str_in sub s'
     end.

(** [sep.join(parts)] *)
Fixpoint join (sep : string) (parts : list string) : string :=
  match parts with
  | [] => EmptyString
  | [x] => x
  | x :: rest => (x ++ sep ++ join sep rest)%string
  end.

(** [str(i)] for an integer *)
Definition str_of_int (i : Z) : string :=
  NilZero.string_of_int (Z.to_int i).

(** [l[:n]] *)
Definition slice_to {A} (l : list A) (n : Z) : list A :=
  if n <? 0 then firstn (Z.to_nat (Z.of_nat (List.length l) + n)) l
  else firstn (Z.to_nat n) l.

(** [l.insert(i, x)] for a non-negative index *)
Fixpoint list_insert {A} (i : nat) (x : A) (l : list A) : list A :=
  match i, l with
  | O, _ => x :: l
  | S _, [] => [x]
  | S i', y :: l' => y :: list_insert i' x l'
  end.

(** [list.sort(key=..., reverse=...)].  The sort is stable and compares keys
    with [<] only; with [reverse=True] the list is reversed, sorted and
    reversed again, so that equal keys keep their order.  A stable sort has
    one possible output, computed here by insertion. *)
Section Sort.
Context {A K : Type} (lt : K -> K -> bool) (key : A -> K).

Fixpoint insert (x : A) (l : list A) : list A :=
  match l with
  | [] => [x]
  | y :: l' => if lt (key y) (key x) then y :: insert x l' else x :: l
  end.

Definition stable_sort (l : list A) : list A := fold_right insert [] l.

Definition list_sort (reverse : bool) (l : list A) : list A :=
  if reverse then rev (stable_sort (rev l)) else stable_sort l.
End Sort.

(** Comparison of floats and of [(float, str)] tuples: the first component
    that differs decides. *)
Definition float_lt (a b : Q) : bool :=
  match (a ?= b)%Q with Lt => true | _ => false end.

Definition tuple_lt (x y : Q * string) : bool :=
  if Qeq_bool (fst x) (fst y) then String.ltb (snd x) (snd y)
  else float_lt (fst x) (fst y).

(** Rounding to an integer, ties to even *)
Definition round_half_even (q : Q) : Z :=
  let n := Qfloor q in
  match (q - inject_Z n ?= 1 # 2)%Q with
  | Lt => n
  | Gt => n + 1
  | Eq => if Z.even n then n else n + 1
  end.

(** The binary64 value nearest to a rational, ties to even: 53 significant
    bits.  Exponents are not bounded, the range of the normal numbers is
    meant. *)
Definition binary64 (q : Q) : Q :=
  if Qeq_bool q 0 then 0%Q
  else
    let a := Qabs q in
    let e0 := Z.log2 (Qnum a) - Z.log2 (Zpos (Qden a)) in
    let e := if Qle_bool (2 ^ e0)%Q a then e0 else e0 - 1 in
    let m := round_half_even (a * 2 ^ (52 - e))%Q in
    let v := (inject_Z m * 2 ^ (e - 52))%Q in
    Qred (if float_lt q 0 then (- v)%Q else v).

(** [a / b] on integers, for [b] other than zero *)
Definition int_truediv (a b : Z) : Q :=
  binary64 (inject_Z a / inject_Z b)%Q.

(** [f"{x:.2f}"]: the decimal nearest to the exact value, ties to even *)
Definition pad2 (n : Z) : string :=
  if n <? 10 then ("0" ++ str_of_int n)%string else str_of_int n.

Definition format_2f (q : Q) : string :=
  let n := round_half_even (Qabs q * inject_Z 100) in
  ((if float_lt q 0 then "-" else "") ++ str_of_int (n / 100) ++ "."
     ++ pad2 (n mod 100))%string.

End Py.

(** ** Regular expressions, as far as [re.match] is used *)

Module Re.

Inductive regex : Type :=
| Void
| Eps
| Chr (c : ascii)
| Digit
| Cat (r1 r2 : regex)
| Alt (r1 r2 : regex)
| Star (r : regex).

(** [r{n}], [r?] and [r+] *)
Fixpoint Rep (n : nat) (r : regex) : regex :=
  match n with
  | O => Eps
  | S n' => Cat r (Rep n' r)
  end.

Definition Opt (r : regex) : regex := Alt r Eps.
Definition Plus (r : regex) : regex := Cat r (Star r).

(** [\d], on ASCII text: the digits 0 to 9 *)
Definition is_digit (c : ascii) : bool :=
  let n := nat_of_ascii c in (48 <=? n)%nat && (n <=? 57)%nat.

Fixpoint nullable (r : regex) : bool :=
  match r with
  | Void | Chr _ | Digit => false
  | Eps | Star _ => true
  | Cat r1 r2 => nullable r1 && nullable r2
  | Alt r1 r2 => nullable r1 || nullable r2
  end.

Fixpoint deriv (a : ascii) (r : regex) : regex :=
  match r with
  | Void | Eps => Void
  | Chr c => if Ascii.eqb a c then Eps else Void
  | Digit => if is_digit a then Eps else Void
  | Cat r1 r2 =>
      if nullable r1 then Alt (Cat (deriv a r1) r2) (deriv a r2)
      else Cat (deriv a r1) r2
  | Alt r1 r2 => Alt (deriv a r1) (deriv a r2)
  | Star r1 => Cat (deriv a r1) (Star r1)
  end.

(** [re.match(r, s)] is truthy when some prefix of [s] is in the language
    of [r]: the pattern is anchored at the start only. *)
Fixpoint re_match (r : regex) (s : string) : bool :=
  nullable r
  || match s with
     | EmptyString => false
     | String a s' => re_match (deriv a r) s'
     end.

(** [re.fullmatch(r, s)]: the whole of [s] is in the language of [r]. *)
Fixpoint re_fullmatch (r : regex) (s : string) : bool :=
  match s with
  | EmptyString => nullable r
  | String a s' => re_fullmatch (deriv a r) s'
  end.

(** The language of a pattern *)
Inductive matches : regex -> string -> Prop :=
| MEps : matches Eps EmptyString
| MChr c : matches (Chr c) (String c EmptyString)
| MDigit c : is_digit c = true -> matches Digit (String c EmptyString)
| MCat r1 r2 s1 s2 :
    matches r1 s1 -> matches r2 s2 -> matches (Cat r1 r2) (s1 ++ s2)%string
| MAltL r1 r2 s : matches r1 s -> matches (Alt r1 r2) s
| MAltR r1 r2 s : matches r2 s -> matches (Alt r1 r2) s
| MStar0 r : matches (Star r) EmptyString
| MStarS r s1 s2 :
    matches r s1 -> matches (Star r) s2 -> matches (Star r) (s1 ++ s2)%string.

End Re.

(** ** [datetime]: UTC instants in microseconds since the epoch *)

Module Datetime.

(** [datetime.min] and [datetime.max], read in UTC: 0001-01-01 00:00:00
    and 9999-12-31 23:59:59.999999 *)
Definition min_instant : Z := -62135596800000000.
Definition max_instant : Z := 253402300799999999.

(** [timedelta(days=d)]: the number of days is at most 999999999 in
    magnitude; beyond that CPython names the bound, and past the range of
    a C int it fails in the conversion. *)
Definition timedelta (days : Z) : Py.result Z :=
  if Z.abs days <=? 999999999 then Py.Ok (days * 86400000000)
  else if (- 2147483648 <=? days) && (days <=? 2147483647)
  then Py.Raise
         (Py.OverflowError
            ("days=" ++ Py.str_of_int days
             ++ "; must have magnitude <= 999999999")%string)
  else Py.Raise
         (Py.OverflowError "Python int too large to convert to C int").

(** [t - delta]: the result is a [datetime] or the subtraction raises. *)
Definition sub (t delta : Z) : Py.result Z :=
  if (min_instant <=? t - delta) && (t - delta <=? max_instant)
  then Py.Ok (t - delta)
  else Py.Raise (Py.OverflowError "date value out of range").

(** The proleptic Gregorian date [(year, month, day)] of a day number
    counted from 1970-01-01. *)
Definition civil_from_days (d : Z) : Z * Z * Z :=
  let z := d + 719468 in
  let era := z / 146097 in
  let doe := z - era * 146097 in
  let yoe := (doe - doe / 1460 + doe / 36524 - doe / 146096) / 365 in
  let doy := doe - (365 * yoe + yoe / 4 - yoe / 100) in
  let mp := (5 * doy + 2) / 153 in
  let day := doy - (153 * mp + 2) / 5 + 1 in
  let month := if mp <? 10 then mp + 3 else mp - 9 in
  let year := yoe + era * 400 + (if month <=? 2 then 1 else 0) in
  (year, month, day).

(** [t.strftime('%Y-%m-%d')], for the four-digit years *)
Definition strftime_ymd (t : Z) : string :=
  let '(year, month, day) := civil_from_days (t / 86400000000) in
  (Py.str_of_int year ++ "-" ++ Py.pad2 month ++ "-" ++ Py.pad2 day)%string.

End Datetime.

(** ** The [arxiv] client, as the server sees it *)

Module Arxiv.

(** [arxiv.Result], restricted to the attributes the server reads *)
Record Result : Type := {
  title : string;
  authors : list string;
  summary : string;
  pdf_url : string;
  published : Z;
  categories : list string
}.

Inductive SortCriterion : Type := Relevance | LastUpdatedDate | SubmittedDate.
Inductive SortOrder : Type := Ascending | Descending.

(** [arxiv.Search(query="", id_list=[], max_results=None,
    sort_by=Relevance, sort_order=Descending)] *)
Record Search : Type := {
  query : string;
  id_list : list string;
  max_results : option Z;
  sort_by : SortCriterion;
  sort_order : SortOrder
}.

(** The generator returned by [client.results(search)]: it stops, yields a
    record and goes on, or raises. *)
Inductive results : Type :=
| Stop
| Yield (paper : Result) (rest : results)
| Throw (e : Py.exn).

Definition Client : Type := Search -> results.

(** The generator that yields the records of a list and stops *)
Fixpoint yield_all (l : list Result) : results :=
  match l with
  | [] => Stop
  | paper :: l' => Yield paper (yield_all l')
  end.

End Arxiv.

(** ** The server *)

Module Server.
Import Py.

(** The dictionary built for each paper *)
Record paper_dict : Type := {
  title : string;
  authors : list string;
  summary : string;
  url : string;
  published_date : string;
  categories : list string;
  relevance_score : Q
}.

Definition calculate_relevance_score {S : Str}
    (paper : Arxiv.Result) (keywords : option (list string)) : Q :=
  match keywords with
  | None | Some [] => 1%Q
  | Some keywords =>
      let title_weight := 2 in
      let summary_weight := 1 in
      let '(score, total_weight) :=
        fold_left
          (fun '(score, total_weight) keyword =>
             let score :=
               if str_in (lower keyword) (lower (Arxiv.title paper))
               then score + title_weight else score in
             let score :=
               if str_in (lower keyword) (lower (Arxiv.summary paper))
               then score + summary_weight else score in
             (score, total_weight + (title_weight + summary_weight)))
          keywords (0, 0) in
      if 0 <? total_weight
      then int_truediv score total_weight
      else 0%Q
  end.

(** What one round of the loop of [calculate_relevance_score] adds to
    [score] *)
Definition gain {S : Str} (paper : Arxiv.Result) (keyword : string) : Z :=
  (if str_in (lower keyword) (lower (Arxiv.title paper)) then 2 else 0)
  + (if str_in (lower keyword) (lower (Arxiv.summary paper)) then 1 else 0).

(** [r'\d{4}\.\d{4,5}(?:v\d+)?'] *)
Definition arxiv_id_pattern : Re.regex :=
  Re.Cat (Re.Rep 4 Re.Digit)
    (Re.Cat (Re.Chr ".")
       (Re.Cat (Re.Cat (Re.Rep 4 Re.Digit) (Re.Opt Re.Digit))
          (Re.Opt (Re.Cat (Re.Chr "v") (Re.Plus Re.Digit))))).

Definition moe_inference_query : string :=
  ("(ti:" ++ dquote ++ "mixture of experts" ++ dquote
   ++ " OR ti:moe) AND (ti:deployment OR abs:deployment OR ti:inference"
   ++ " OR abs:inference OR ti:efficient OR abs:efficient)")%string.

(** The query string sent in search mode *)
Definition final_query (query_type : string) (field : option string)
    (keywords : option (list string)) : string :=
  let query_parts := [] in
  let query_parts :=
    if (query_type =? "moe inference")%string
    then query_parts ++ [moe_inference_query]
    else if str_truthy query_type then query_parts ++ [query_type]
    else query_parts in
  let query_parts :=
    match field with
    | Some field =>
        if str_truthy field
        then query_parts
               ++ [("(cat:" ++ dquote ++ field ++ dquote ++ ")")%string]
        else query_parts
    | None => query_parts
    end in
  let query_parts :=
    match keywords with
    | Some ((_ :: _) as keywords) =>
        let keyword_conditions :=
          map (fun keyword =>
                 ("(ti:" ++ dquote ++ keyword ++ dquote ++ " OR abs:"
                  ++ dquote ++ keyword ++ dquote ++ ")")%string)
              keywords in
        let keyword_query := join " OR " keyword_conditions in
        query_parts ++ [("(" ++ keyword_query ++ ")")%string]
    | _ => query_parts
    end in
  match query_parts with
  | [] => "*:*"%string
  | _ => join " AND " query_parts
  end.

Definition to_dict (paper : Arxiv.Result) (score : Q) : paper_dict :=
  {| title := Arxiv.title paper;
     authors := Arxiv.authors paper;
     summary := Arxiv.summary paper;
     url := Arxiv.pdf_url paper;
     published_date := Datetime.strftime_ymd (Arxiv.published paper);
     categories := Arxiv.categories paper;
     relevance_score := score |}.

(** The loop over [client.results(search)]: [papers] is the list built so
    far.  [len(keywords)] is evaluated for every record, before the date
    test. *)
Fixpoint retain_loop {S : Str} (keywords : option (list string))
    (cutoff_date : Z) (rs : Arxiv.results) (papers : list paper_dict)
  : result (list paper_dict) :=
  match rs with
  | Arxiv.Stop => Ok papers
  | Arxiv.Throw e => Raise e
  | Arxiv.Yield paper rest =>
      match len keywords with
      | Raise e => Raise e
      | Ok n =>
          if (0 <? n) || (cutoff_date <=? Arxiv.published paper)
          then
            let relevance_score := calculate_relevance_score paper keywords in
            retain_loop keywords cutoff_date rest
              (papers ++ [to_dict paper relevance_score])
          else retain_loop keywords cutoff_date rest papers
      end
  end.

(** The key of the final sort *)
Definition sort_key (x : paper_dict) : Q * string :=
  ((- relevance_score x)%Q, published_date x).

(** [query_type and re.match(arxiv_id_pattern, query_type)] *)
Definition is_identifier (query_type : string) : bool :=
  str_truthy query_type && Re.re_match arxiv_id_pattern query_type.

(** [arxiv.Search(id_list=[query_type])] *)
Definition id_search (query_type : string) : Arxiv.Search :=
  {| Arxiv.query := ""; Arxiv.id_list := [query_type];
     Arxiv.max_results := None;
     Arxiv.sort_by := Arxiv.Relevance;
     Arxiv.sort_order := Arxiv.Descending |}.

(** [arxiv.Search(query=final_query, max_results=max(100, max_results * 2),
    sort_by=arxiv.SortCriterion.SubmittedDate)] *)
Definition query_search (query_type : string) (max_results : Z)
    (field : option string) (keywords : option (list string))
  : Arxiv.Search :=
  {| Arxiv.query := final_query query_type field keywords;
     Arxiv.id_list := [];
     Arxiv.max_results := Some (Z.max 100 (max_results * 2));
     Arxiv.sort_by := Arxiv.SubmittedDate;
     Arxiv.sort_order := Arxiv.Descending |}.

(** [now - timedelta(days=days)] *)
Definition cutoff (now days : Z) : result Z :=
  bind (Datetime.timedelta days) (fun delta => Datetime.sub now delta).

Definition search_papers {S : Str} (client : Arxiv.Client) (now : Z)
    (days : Z) (query_type : string) (max_results : Z)
    (field : option string) (keywords : option (list string))
  : result (list paper_dict) :=
  if is_identifier query_type then
    (* next(client.results(...)), StopIteration caught *)
    match client (id_search query_type) with
    | Arxiv.Yield paper _ => Ok [to_dict paper 1%Q]
    | Arxiv.Stop => Ok []
    | Arxiv.Throw e => Raise e
    end
  else
    let search := query_search query_type max_results field keywords in
    bind (cutoff now days)
      (fun cutoff_date =>
         bind (retain_loop keywords cutoff_date (client search) [])
           (fun papers =>
              let papers := list_sort tuple_lt sort_key true papers in
              Ok (slice_to papers max_results))).

(** [enumerate(l, start)] *)
Fixpoint enumerate {A} (l : list A) (start : Z) : list (Z * A) :=
  match l with
  | [] => []
  | x :: l' => (start, x) :: enumerate l' (start + 1)
  end.

Definition no_papers_text : string :=
  "在指定时间范围内未找到相关论文。".

(** Every dictionary built by [search_papers] has the key
    ['relevance_score'], so the score line depends on [show_score] only. *)
Definition format_paper (show_score : bool) (i : Z) (paper : paper_dict)
  : string :=
  let paper_text :=
    [ (str_of_int i ++ ". " ++ title paper)%string;
      ("作者: " ++ join ", " (authors paper))%string;
      ("发布日期: " ++ published_date paper)%string;
      ("领域分类: " ++ join ", " (categories paper))%string;
      ("链接: " ++ url paper)%string;
      ("摘要: " ++ summary paper)%string ] in
  let paper_text :=
    if show_score
    then list_insert 1
           ("相关性得分: " ++ format_2f (relevance_score paper))%string
           paper_text
    else paper_text in
  (join newline paper_text ++ newline ++ "---")%string.

Definition format_papers (papers : list paper_dict) (show_score : bool)
  : string :=
  match papers with
  | [] => no_papers_text
  | _ =>
      join (newline ++ newline)
        (map (fun ip => format_paper show_score (fst ip) (snd ip))
             (enumerate papers 1))
  end.

(** The argument bag of a tool call: a key that is absent reads as [None] *)
Record arguments : Type := {
  arg_days : option Z;
  arg_query_type : option string;
  arg_max_results : option Z;
  arg_field : option string;
  arg_keywords : option (list string)
}.

Definition no_arguments : arguments :=
  {| arg_days := None; arg_query_type := None; arg_max_results := None;
     arg_field := None; arg_keywords := None |}.

(** [d.get(key, default)] *)
Definition get {A} (v : option A) (default : A) : A :=
  match v with Some x => x | None => default end.

Record TextContent : Type := { type : string; text : string }.

Definition error_marker : string := "出现错误: ".

Definition handle_call_tool {S : Str} (client : Arxiv.Client) (now : Z)
    (name : string) (arguments : option arguments)
  : result (list TextContent) :=
  let arguments := get arguments no_arguments in
  if negb (name =? "papersearch")%string
  then Raise (ValueError ("Unknown tool: " ++ name)%string)
  else
    let days := get (arg_days arguments) 7 in
    let query_type := get (arg_query_type arguments) "moe"%string in
    let max_results := get (arg_max_results arguments) 100 in
    let field := arg_field arguments in
    let keywords := arg_keywords arguments in
    match search_papers client now days query_type max_results field keywords
    with
    | Ok papers =>
        let papers_text := format_papers papers false in
        Ok [ {| type := "text"; text := papers_text |} ]
    | Raise e =>
        Ok [ {| type := "text";
                text := (error_marker ++ str_of_exn e)%string |} ]
    end.

End Server.

(** ** The vocabulary of the specification *)

Module Spec.
Local Open Scope string_scope.

(** [k] occurs in [t] without regard to case, as Python tests it: the
    lower-case form of [k] is a substring of the lower-case form of [t]. *)
Definition occurs_ci {S : Py.Str} (k t : string) : Prop :=
  exists pre post, Py.lower t = pre ++ Py.lower k ++ post.



Definition sum (l : list Z) : Z := fold_right Z.add 0 l.

(** A day, in microseconds *)
Definition day : Z := 24 * 60 * 60 * 1000000.

(** The instant [days] days before [now] is one a [datetime] can hold,
    and [days] one a [timedelta] can hold. *)
Definition in_range (now days : Z) : Prop :=
  - 999999999 <= days <= 999999999
  /\ - 62135596800000000 <= now - days * day <= 253402300799999999.

(** The recency rule: kept when a keyword is given or the paper is not
    older than [days] days at [now] *)
Definition retained (now days : Z) (keywords : list string)
    (paper : Arxiv.Result) : Prop :=
  keywords <> [] \/ now - days * day <= Arxiv.published paper.

Definition retained_dec (now days : Z) (keywords : list string)
    (paper : Arxiv.Result)
  : {retained now days keywords paper} + {~ retained now days keywords paper}.
Proof.
  unfold retained. destruct keywords as [|k ks].
  - destruct (Z_le_dec (now - days * day) (Arxiv.published paper))
      as [H | H].
    + left. right. exact H.
    + right. intros [Hk | Hd]; [apply Hk; reflexivity | apply H; exact Hd].
  - left. left. discriminate.
Defined.

(** The order the specification asks of the result: scores never increase
    and, where two scores are equal, dates never increase. *)
Definition score_desc_then_date_desc (a b : Server.paper_dict) : Prop :=
  (Server.relevance_score b < Server.relevance_score a)%Q
  \/ ((Server.relevance_score a == Server.relevance_score b)%Q
      /\ String.leb (Server.published_date b) (Server.published_date a) = true).

(** The order the code produces: scores never decrease and, where two
    scores are equal, dates never increase. *)
Definition score_asc_then_date_desc (a b : Server.paper_dict) : Prop :=
  (Server.relevance_score a < Server.relevance_score b)%Q
  \/ ((Server.relevance_score a == Server.relevance_score b)%Q
      /\ String.leb (Server.published_date b) (Server.published_date a) = true).

End Spec.

(** ** Sample records and services, for the concrete cases *)

Module Examples.
Local Open Scope string_scope.

(** 2025-11-03 00:00 UTC and 2021-03-05 00:00 UTC *)
Definition nov_2025 : Z := 1762128000000000.
Definition mar_2021 : Z := 1614902400000000.

Definition dense : Arxiv.Result :=
  {| Arxiv.title := "Dense networks";
     Arxiv.authors := ["A. Author"];
     Arxiv.summary := "Nothing sparse here.";
     Arxiv.pdf_url := "http://arxiv.org/pdf/2103.00001";
     Arxiv.published := mar_2021;
     Arxiv.categories := ["cs.LG"] |}.

Definition routing : Arxiv.Result :=
  {| Arxiv.title := "MoE routing";
     Arxiv.authors := ["B. Author"; "C. Author"];
     Arxiv.summary := "Fast Inference with experts.";
     Arxiv.pdf_url := "http://arxiv.org/pdf/2103.03404";
     Arxiv.published := mar_2021 + 86400000000;
     Arxiv.categories := ["cs.LG"; "cs.CL"] |}.

Definition titled : Arxiv.Result :=
  {| Arxiv.title := "Inference for MoE";
     Arxiv.authors := ["D. Author"];
     Arxiv.summary := "Experts at work.";
     Arxiv.pdf_url := "http://arxiv.org/pdf/2103.00002";
     Arxiv.published := mar_2021;
     Arxiv.categories := ["cs.LG"] |}.

(** A service that answers every request with the same records *)
Definition serve (l : list Arxiv.Result) : Arxiv.Client :=
  fun _ => Arxiv.yield_all l.

End Examples.

(** ** What the retrieval may do after some records *)

Module Retrieval.

(** The generator that yields the records of a list and then goes on as
    [rest] *)
Fixpoint yield_then (l : list Arxiv.Result) (rest : Arxiv.results)
  : Arxiv.results :=
  match l with
  | [] => rest
  | paper :: l' => Arxiv.Yield paper (yield_then l' rest)
  end.

End Retrieval.

(** ** The tool listing *)

Module Listing.
Local Open Scope string_scope.

(** The values of a schema: [None], numbers, strings, lists and
    dictionaries in the order they are written *)
#[warnings="-register-all"]
Inductive json : Type :=
| JNull
| JNumber (n : Z)
| JString (s : string)
| JArray (items : list json)
| JObject (members : list (string * json)).

(** [types.Tool] *)
Record Tool : Type := {
  name : string;
  description : string;
  inputSchema : json
}.

Definition handle_list_tools : list Tool :=
  [ {| name := "papersearch";
       description := "Arxiv 论文搜索";
       inputSchema :=
         JObject
           [ ("type", JString "object");
             ("properties",
              JObject
                [ ("days",
                   JObject
                     [ ("type", JString "number");
                       ("description", JString "要搜索的时间范围（天数）");
                       ("default", JNumber 180) ]);
                  ("query_type",
                   JObject
                     [ ("type", JString "string");
                       ("description",
                        JString
                          "搜索类型 (默认为 moe), 或直接传入 arxiv ID (例如 2103.03404)");
                       ("default", JString "moe") ]);
                  ("max_results",
                   JObject
                     [ ("type", JString "number");
                       ("description", JString "返回结果的最大数量");
                       ("default", JNumber 100) ]);
                  ("field",
                   JObject
                     [ ("type", JString "string");
                       ("description", JString "研究领域");
                       ("default", JNull) ]);
                  ("keywords",
                   JObject
                     [ ("type", JString "array");
                       ("items", JObject [ ("type", JString "string") ]);
                       ("description", JString "标题或摘要中的关键词列表");
                       ("default", JNull) ]) ]) ] |} ].

(** [d[key]] on a dictionary, [None] when the key is absent or the value
    is no dictionary *)
Fixpoint lookup (key : string) (members : list (string * json))
  : option json :=
  match members with
  | [] => None
  | (k, v) :: rest => if (k =? key)%string then Some v else lookup key rest
  end.

Definition member (key : string) (j : json) : option json :=
  match j with
  | JObject members => lookup key members
  | _ => None
  end.

(** The default a tool advertises for one of its parameters *)
Definition advertised_default (tool : Tool) (parameter : string)
  : option json :=
  match member "properties" (inputSchema tool) with
  | Some properties =>
      match member parameter properties with
      | Some schema => member "default" schema
      | None => None
      end
  | None => None
  end.

(** The argument bag in which the parameters left out among [days],
    [query_type] and [max_results] take the given defaults *)
Definition fill_defaults (days : Z) (query_type : string) (max_results : Z)
    (args : Server.arguments) : Server.arguments :=
  {| Server.arg_days := Some (Server.get (Server.arg_days args) days);
     Server.arg_query_type :=
       Some (Server.get (Server.arg_query_type args) query_type);
     Server.arg_max_results :=
       Some (Server.get (Server.arg_max_results args) max_results);
     Server.arg_field := Server.arg_field args;
     Server.arg_keywords := Server.arg_keywords args |}.

End Listing.

(** ** Further vocabulary for the properties of the server *)

Module Props.
Local Open Scope string_scope.

(** Two dictionaries with the same score and the same date *)
Definition same_key (score : Q) (date : string) (p : Server.paper_dict)
  : bool :=
  Qeq_bool (Server.relevance_score p) score
  && (Server.published_date p =? date)%string.

(** A dictionary without its score *)
Definition forget_score (p : Server.paper_dict) : Server.paper_dict :=
  {| Server.title := Server.title p;
     Server.authors := Server.authors p;
     Server.summary := Server.summary p;
     Server.url := Server.url p;
     Server.published_date := Server.published_date p;
     Server.categories := Server.categories p;
     Server.relevance_score := 0 |}.

(** Every character of [s] is an ASCII character. *)
Fixpoint is_ascii (s : string) : bool :=
  match s with
  | EmptyString => true
  | String c s' => (nat_of_ascii c <? 128)%nat && is_ascii s'
  end.

(** Every character of [s] is a digit. *)
Fixpoint all_digits (s : string) : bool :=
  match s with
  | EmptyString => true
  | String c s' => Re.is_digit c && all_digits s'
  end.

(** [s] starts with four digits, a dot and four digits. *)
Definition starts_with_identifier (s : string) : Prop :=
  exists a b rest,
    s = a ++ "." ++ b ++ rest
    /\ String.length a = 4%nat /\ all_digits a = true
    /\ String.length b = 4%nat /\ all_digits b = true.

(** The clauses of the query, in the order they are joined *)
Definition topic_clause (query_type : string) : list string :=
  if (query_type =? "moe inference")%string
  then [Server.moe_inference_query]
  else if Py.str_truthy query_type then [query_type] else [].

Definition field_clause (field : option string) : list string :=
  match field with
  | Some f =>
      if Py.str_truthy f
      then ["(cat:" ++ Py.dquote ++ f ++ Py.dquote ++ ")"]
      else []
  | None => []
  end.

Definition keyword_condition (keyword : string) : string :=
  "(ti:" ++ Py.dquote ++ keyword ++ Py.dquote ++ " OR abs:"
  ++ Py.dquote ++ keyword ++ Py.dquote ++ ")".

Definition keyword_clause (keywords : option (list string)) : list string :=
  match keywords with
  | Some (k :: ks) =>
      ["(" ++ Py.join " OR " (map keyword_condition (k :: ks)) ++ ")"]
  | _ => []
  end.

(** A service whose retrieval fails after the given records *)
Definition failing_after (l : list Arxiv.Result) (e : Py.exn)
  : Arxiv.Client :=
  fun _ => Retrieval.yield_then l (Arxiv.Throw e).

(** The argument bag that gives the keywords only *)
Definition only_keywords (keywords : list string) : Server.arguments :=
  {| Server.arg_days := None; Server.arg_query_type := None;
     Server.arg_max_results := None; Server.arg_field := None;
     Server.arg_keywords := Some keywords |}.

(** The argument bag that gives the topic only *)
Definition only_query_type (query_type : string) : Server.arguments :=
  {| Server.arg_days := None; Server.arg_query_type := Some query_type;
     Server.arg_max_results := None; Server.arg_field := None;
     Server.arg_keywords := None |}.

End Props.

(** * Properties *)

(** ** [re.match] finds exactly the strings with a prefix in the language *)

Section RegexFacts.
Import Re.
Local Open Scope string_scope.

Lemma append_nil_r (s : string) : s ++ "" = s.
Proof. induction s as [|c s IH]; simpl; [reflexivity | now rewrite IH]. Qed.

Lemma append_assoc (s1 s2 s3 : string) : (s1 ++ s2) ++ s3 = s1 ++ s2 ++ s3.
Proof. induction s1 as [|c s1 IH]; simpl; [reflexivity | now rewrite IH]. Qed.

Lemma append_eq_nil (s1 s2 : string) : s1 ++ s2 = "" -> s1 = "" /\ s2 = "".
Proof. destruct s1; simpl; intros H; [auto | discriminate]. Qed.

Lemma nullable_matches (r : regex) : nullable r = true <-> matches r "".
Proof.
  split.
  - induction r; simpl; intros H; try discriminate.
    + constructor.
    + apply andb_true_iff in H as [H1 H2].
      change "" with ("" ++ ""). constructor; auto.
    + apply orb_true_iff in H as [H | H]; [apply MAltL | apply MAltR]; auto.
    + constructor.
  - intros H. remember "" as w eqn:Hw.
    induction H; simpl; try discriminate; try reflexivity.
    + apply append_eq_nil in Hw as [-> ->].
      rewrite IHmatches1, IHmatches2; reflexivity.
    + rewrite (IHmatches Hw); reflexivity.
    + rewrite (IHmatches Hw), orb_true_r; reflexivity.
Qed.

Lemma matches_deriv_intro (r : regex) (w : string) :
  matches r w -> forall a t, w = String a t -> matches (deriv a r) t.
Proof.
  induction 1 as [ | c | c Hc | r1 r2 s1 s2 H1 IH1 H2 IH2 | r1 r2 s H IH
                 | r1 r2 s H IH | r | r s1 s2 H1 IH1 H2 IH2 ];
    intros a t Hw; simpl.
  - discriminate.
  - injection Hw as -> <-. rewrite Ascii.eqb_refl. constructor.
  - injection Hw as -> <-. rewrite Hc. constructor.
  - destruct s1 as [|b s1']; simpl in Hw.
    + apply nullable_matches in H1. rewrite H1.
      apply MAltR. apply IH2. assumption.
    + injection Hw as <- <-.
      assert (Hd : matches (Cat (deriv b r1) r2) (s1' ++ s2))
        by (constructor; [apply IH1; reflexivity | assumption]).
      destruct (nullable r1); [apply MAltL|]; exact Hd.
  - apply MAltL. apply IH. assumption.
  - apply MAltR. apply IH. assumption.
  - discriminate.
  - destruct s1 as [|b s1']; simpl in Hw.
    + apply (IH2 a t Hw).
    + injection Hw as <- <-.
      constructor; [apply IH1; reflexivity | assumption].
Qed.

Lemma matches_deriv_elim (r : regex) :
  forall a s, matches (deriv a r) s -> matches r (String a s).
Proof.
  induction r as [ | | c | | r1 IH1 r2 IH2 | r1 IH1 r2 IH2 | r IH ];
    intros a s H; simpl in H.
  - inversion H.
  - inversion H.
  - destruct (Ascii.eqb a c) eqn:E; [|inversion H].
    apply Ascii.eqb_eq in E. subst c. inversion H. constructor.
  - destruct (is_digit a) eqn:E; [|inversion H].
    inversion H. constructor. assumption.
  - assert (Hcat : forall t, matches (Cat (deriv a r1) r2) t ->
                             matches (Cat r1 r2) (String a t)).
    { intros t Ht. inversion Ht as [ | | | ra rb s1 s2 Ha Hb | | | | ]; subst.
      change (String a (s1 ++ s2)) with (String a s1 ++ s2).
      constructor; [apply IH1|]; assumption. }
    destruct (nullable r1) eqn:N.
    + inversion H as [ | | | | ra rb t Ht | ra rb t Ht | | ]; subst.
      * apply Hcat. assumption.
      * change (String a s) with ("" ++ String a s).
        constructor; [apply nullable_matches; assumption | apply IH2; assumption].
    + apply Hcat. assumption.
  - inversion H as [ | | | | ra rb t Ht | ra rb t Ht | | ]; subst.
    + apply MAltL. apply IH1. assumption.
    + apply MAltR. apply IH2. assumption.
  - inversion H as [ | | | ra rb s1 s2 Ha Hb | | | | ]; subst.
    change (String a (s1 ++ s2)) with (String a s1 ++ s2).
    constructor; [apply IH|]; assumption.
Qed.

(** A string in the language, followed by anything, is matched. *)
Lemma re_match_prefix (p : string) :
  forall r rest, matches r p -> re_match r (p ++ rest) = true.
Proof.
  induction p as [|a p IH]; intros r rest H.
  - apply nullable_matches in H. destruct rest; simpl; rewrite H; reflexivity.
  - simpl. rewrite (IH (deriv a r) rest), orb_true_r; [reflexivity|].
    apply (matches_deriv_intro r _ H). reflexivity.
Qed.

(** Whatever is matched starts with a string in the language. *)
Lemma re_match_sound (s : string) :
  forall r, re_match r s = true ->
            exists p rest, s = p ++ rest /\ matches r p.
Proof.
  induction s as [|a s IH]; intros r H; simpl in H.
  - rewrite orb_false_r in H. exists "", "". split; [reflexivity|].
    apply nullable_matches. assumption.
  - apply orb_true_iff in H as [H | H].
    + exists "", (String a s). split; [reflexivity|].
      apply nullable_matches. assumption.
    + destruct (IH _ H) as (p & rest & -> & Hp).
      exists (String a p), rest. split; [reflexivity|].
      apply matches_deriv_elim. assumption.
Qed.

Lemma re_fullmatch_spec (s : string) :
  forall r, re_fullmatch r s = true <-> matches r s.
Proof.
  induction s as [|a s IH]; intros r; simpl.
  - apply nullable_matches.
  - rewrite IH. split.
    + apply matches_deriv_elim.
    + intros H. apply (matches_deriv_intro r _ H). reflexivity.
Qed.

Lemma re_match_spec (r : regex) (s : string) :
  re_match r s = true <-> exists p rest, s = p ++ rest /\ matches r p.
Proof.
  split.
  - apply re_match_sound.
  - intros (p & rest & -> & Hp). apply re_match_prefix. assumption.
Qed.

End RegexFacts.

(** ** Substring test and lower-casing *)

Section StringFacts.
Import Py.
Local Open Scope string_scope.
Context {S : Str}.

Lemma prefix_append (p s : string) : String.prefix p (p ++ s) = true.
Proof.
  induction p as [|c p IH]; simpl.
  - destruct s; reflexivity.
  - destruct (ascii_dec c c) as [_ | N]; [exact IH | now destruct N].
Qed.

Lemma prefix_split (p : string) :
  forall s, String.prefix p s = true -> exists post, s = p ++ post.
Proof.
  induction p as [|c p IH]; intros s H.
  - exists s. reflexivity.
  - destruct s as [|d s]; simpl in H; [discriminate|].
    destruct (ascii_dec c d) as [<- | _]; [|discriminate].
    destruct (IH s H) as [post ->]. exists post. reflexivity.
Qed.

Lemma str_in_unfold (sub s : string) :
  str_in sub s
  = String.prefix sub s
    || match s with EmptyString => false | String _ s' => str_in sub s' end.
Proof. destruct s; reflexivity. Qed.

Lemma str_in_spec (sub s : string) :
  str_in sub s = true <-> exists pre post, s = pre ++ sub ++ post.
Proof.
  split.
  - induction s as [|c s IH]; rewrite str_in_unfold; intros H;
      apply orb_true_iff in H as [H | H]; try discriminate.
    + destruct (prefix_split _ _ H) as [post E]. exists "", post. exact E.
    + destruct (prefix_split _ _ H) as [post E]. exists "", post. exact E.
    + destruct (IH H) as (pre & post & ->).
      exists (String c pre), post. reflexivity.
  - intros (pre & post & ->).
    induction pre as [|c pre IH]; rewrite str_in_unfold.
    + simpl. rewrite prefix_append. reflexivity.
    + change (String c pre ++ sub ++ post) with (String c (pre ++ sub ++ post)).
      cbv iota. rewrite IH. apply orb_true_r.
Qed.

(** The test made by the code decides the occurrence of a keyword
    without regard to case. *)
Lemma occurs_ci_iff (k t : string) :
  str_in (lower k) (lower t) = true <-> Spec.occurs_ci k t.
Proof. apply str_in_spec. Qed.



End StringFacts.

(** ** The scoring loop *)

Section ScoreFacts.
Import Py Server.
Context {S : Str}.

Variable paper : Arxiv.Result.

Lemma score_loop (kws : list string) :
  forall score total_weight,
    fold_left
      (fun '(score, total_weight) keyword =>
         let score :=
           if str_in (lower keyword) (lower (Arxiv.title paper))
           then score + 2 else score in
         let score :=
           if str_in (lower keyword) (lower (Arxiv.summary paper))
           then score + 1 else score in
         (score, total_weight + (2 + 1)))
      kws (score, total_weight)
    = (score + Spec.sum (map (gain paper) kws),
       total_weight + 3 * Z.of_nat (List.length kws)).
Proof.
  induction kws as [|k kws IH]; intros score total_weight.
  - simpl. f_equal; lia.
  - cbn [fold_left]. rewrite IH.
    cbn [map Spec.sum fold_right List.length].
    fold (Spec.sum (map (gain paper) kws)). unfold gain at 2.
    destruct (str_in (lower k) (lower (Arxiv.title paper)));
      destruct (str_in (lower k) (lower (Arxiv.summary paper)));
      f_equal; lia.
Qed.

Lemma calculate_relevance_score_nonempty (k : string) (ks : list string) :
  calculate_relevance_score paper (Some (k :: ks))
  = int_truediv (Spec.sum (map (gain paper) (k :: ks)))
                (3 * Z.of_nat (List.length (k :: ks))).
Proof.
  pose proof (score_loop (k :: ks) 0 0) as Hloop. cbv zeta in Hloop.
  unfold calculate_relevance_score. cbv zeta. rewrite Hloop.
  replace (0 <? 0 + 3 * Z.of_nat (List.length (k :: ks))) with true.
  - reflexivity.
  - symmetry. apply Z.ltb_lt. cbn [List.length]. lia.
Qed.




End ScoreFacts.

(** ** Sorting and slicing keep the elements *)

Section ListFacts.
Import Py.
Context {A K : Type} (lt : K -> K -> bool) (key : A -> K).

Lemma In_insert (x y : A) (l : list A) :
  In x (insert lt key y l) <-> x = y \/ In x l.
Proof.
  induction l as [|z l IH]; simpl.
  - intuition.
  - destruct (lt (key z) (key y)); simpl; [rewrite IH|]; intuition.
Qed.

Lemma In_stable_sort (x : A) (l : list A) :
  In x (stable_sort lt key l) <-> In x l.
Proof.
  induction l as [|y l IH]; simpl; [reflexivity|].
  rewrite In_insert, IH. intuition.
Qed.

Lemma In_list_sort (reverse : bool) (x : A) (l : list A) :
  In x (list_sort lt key reverse l) <-> In x l.
Proof.
  unfold list_sort. destruct reverse.
  - rewrite <- in_rev, In_stable_sort, <- in_rev. reflexivity.
  - apply In_stable_sort.
Qed.

End ListFacts.

Section SliceFacts.
Import Py.
Context {A : Type}.

Lemma In_firstn (n : nat) (x : A) :
  forall l, In x (firstn n l) -> In x l.
Proof.
  induction n as [|n IH]; intros [|y l]; simpl; try tauto.
  intros [H | H]; [left; exact H | right; apply IH; exact H].
Qed.

Lemma In_slice_to (l : list A) (n : Z) (x : A) :
  In x (slice_to l n) -> In x l.
Proof. unfold slice_to. destruct (n <? 0); apply In_firstn. Qed.

Lemma length_slice_to (l : list A) (n : Z) :
  0 <= n -> Z.of_nat (List.length (slice_to l n)) <= n.
Proof.
  intros Hn. unfold slice_to.
  destruct (n <? 0) eqn:E; [apply Z.ltb_lt in E; lia|].
  pose proof (firstn_le_length (Z.to_nat n) l). lia.
Qed.

Lemma slice_to_nil (n : Z) : slice_to (@nil A) n = [].
Proof. unfold slice_to. destruct (n <? 0); apply firstn_nil. Qed.

End SliceFacts.

(** ** The cutoff *)

Section CutoffFacts.
Import Py Server.

(** The cutoff is computed exactly when the instant is in range. *)
Lemma cutoff_in_range (now days : Z) :
  Spec.in_range now days -> cutoff now days = Ok (now - days * Spec.day).
Proof.
  intros [Hd Hr]. unfold cutoff, Datetime.timedelta.
  replace (Z.abs days <=? 999999999) with true
    by (symmetry; apply Z.leb_le; lia).
  cbn [bind]. unfold Datetime.sub, Datetime.min_instant, Datetime.max_instant.
  change (days * 86400000000) with (days * Spec.day).
  replace ((-62135596800000000 <=? now - days * Spec.day)
           && (now - days * Spec.day <=? 253402300799999999)) with true;
    [reflexivity|].
  symmetry. apply andb_true_iff. split; apply Z.leb_le; lia.
Qed.

Lemma cutoff_ok (now days c : Z) :
  cutoff now days = Ok c ->
  Spec.in_range now days /\ c = now - days * Spec.day.
Proof.
  unfold cutoff, Datetime.timedelta.
  destruct (Z.abs days <=? 999999999) eqn:Hd.
  - cbn [bind]. unfold Datetime.sub, Datetime.min_instant, Datetime.max_instant.
    change (days * 86400000000) with (days * Spec.day).
    destruct ((-62135596800000000 <=? now - days * Spec.day)
              && (now - days * Spec.day <=? 253402300799999999)) eqn:Hr;
      [|discriminate].
    intros H. injection H as <-. apply Z.leb_le in Hd.
    apply andb_true_iff in Hr as [H1 H2]. apply Z.leb_le in H1, H2.
    unfold Spec.in_range. repeat split; lia.
  - destruct ((-2147483648 <=? days) && (days <=? 2147483647)); discriminate.
Qed.

(** Out of range the cutoff raises [OverflowError]. *)
Lemma cutoff_overflow (now days : Z) :
  ~ Spec.in_range now days ->
  exists msg, cutoff now days = Raise (OverflowError msg).
Proof.
  intros H. destruct (cutoff now days) as [c|e] eqn:E.
  - exfalso. apply H. apply (cutoff_ok _ _ _ E).
  - unfold cutoff, Datetime.timedelta, Datetime.sub in E.
    destruct (Z.abs days <=? 999999999).
    + cbn [bind] in E.
      destruct ((Datetime.min_instant <=? now - days * 86400000000)
                && (now - days * 86400000000 <=? Datetime.max_instant));
        [discriminate|]. injection E as <-. eexists. reflexivity.
    + destruct ((-2147483648 <=? days) && (days <=? 2147483647));
        cbn [bind] in E; injection E as <-; eexists; reflexivity.
Qed.

End CutoffFacts.

(** ** The retrieval loop *)

Section LoopFacts.
Import Py Server.
Context {S : Str}.

Lemma retain_loop_list (kws : list string) (now days : Z)
    (raw : list Arxiv.Result) :
  forall papers,
    retain_loop (Some kws) (now - days * Spec.day)
      (Arxiv.yield_all raw) papers
    = Ok (papers
            ++ map (fun p => to_dict p (calculate_relevance_score p (Some kws)))
                 (filter (fun p =>
                            if Spec.retained_dec now days kws p
                            then true else false) raw)).
Proof.
  induction raw as [|p raw IH]; intros papers; cbn [Arxiv.yield_all retain_loop].
  - simpl. rewrite app_nil_r. reflexivity.
  - cbn [len filter].
    destruct (Spec.retained_dec now days kws p) as [Hr | Hr].
    + replace ((0 <? Z.of_nat (List.length kws))
               || (now - days * Spec.day <=? Arxiv.published p))
        with true.
      * rewrite IH. cbn [map]. rewrite <- app_assoc. reflexivity.
      * symmetry. apply orb_true_iff. destruct Hr as [Hk | Hd].
        -- left. apply Z.ltb_lt. destruct kws; [congruence | cbn; lia].
        -- right. apply Z.leb_le. exact Hd.
    + replace ((0 <? Z.of_nat (List.length kws))
               || (now - days * Spec.day <=? Arxiv.published p))
        with false.
      * apply IH.
      * symmetry. apply orb_false_iff. split.
        -- apply Z.ltb_ge. destruct kws as [|k ks]; [cbn; lia|].
           exfalso. apply Hr. left. discriminate.
        -- apply Z.leb_gt. apply Z.nle_gt. intros Hd. apply Hr. right. exact Hd.
Qed.

(** The loop only adds dictionaries scored by [calculate_relevance_score]. *)
Lemma retain_loop_scores (P : paper_dict -> Prop)
    (keywords : option (list string)) (cutoff_date : Z) :
  (forall p, P (to_dict p (calculate_relevance_score p keywords))) ->
  forall rs papers l,
    Forall P papers ->
    retain_loop keywords cutoff_date rs papers = Ok l ->
    Forall P l.
Proof.
  intros HP. induction rs as [|p rest IH|e]; intros papers l Hacc H;
    cbn [retain_loop] in H.
  - injection H as <-. exact Hacc.
  - destruct (len keywords) as [n|e]; [|discriminate].
    destruct ((0 <? n) || (cutoff_date <=? Arxiv.published p)).
    + apply (IH _ _ (proj2 (Forall_app _ _ _) (conj Hacc (Forall_cons _ (HP p) (Forall_nil _)))) H).
    + apply (IH _ _ Hacc H).
  - discriminate.
Qed.

(** With [keywords=None] the loop stops at the first record. *)
Lemma retain_loop_none (cutoff_date : Z) (rs : Arxiv.results)
    (papers : list paper_dict) :
  retain_loop None cutoff_date rs papers
  = match rs with
    | Arxiv.Stop => Ok papers
    | Arxiv.Yield _ _ => Raise (TypeError none_has_no_len)
    | Arxiv.Throw e => Raise e
    end.
Proof. destruct rs; reflexivity. Qed.

(** With a keyword the date test is never reached. *)
Lemma retain_loop_keywords (k : string) (ks : list string)
    (c c' : Z) (rs : Arxiv.results) :
  forall papers,
    retain_loop (Some (k :: ks)) c rs papers
    = retain_loop (Some (k :: ks)) c' rs papers.
Proof.
  induction rs as [|p rest IH|e]; intros papers; cbn [retain_loop];
    try reflexivity.
  cbn [len]. replace (0 <? Z.of_nat (List.length (k :: ks))) with true
    by (symmetry; apply Z.ltb_lt; cbn [List.length]; lia).
  cbn [orb]. apply IH.
Qed.

End LoopFacts.

(** ** The order produced by [list.sort] *)

Section SortedFacts.
Import Py.
Context {A K : Type} (lt : K -> K -> bool) (key : A -> K).

(** [a] may stand before [b] in ascending order *)
Let le (a b : A) : Prop := lt (key b) (key a) = false.

Hypothesis lt_asym : forall x y, lt x y = true -> lt y x = false.
Hypothesis le_trans :
  forall x y z, lt y x = false -> lt z y = false -> lt z x = false.

Lemma insert_sorted (x : A) (l : list A) :
  StronglySorted le l -> StronglySorted le (insert lt key x l).
Proof.
  induction 1 as [|y l Hl IH Hy]; simpl.
  - repeat constructor.
  - destruct (lt (key y) (key x)) eqn:E.
    + constructor; [exact IH|].
      rewrite Forall_forall in *. intros z Hz.
      apply In_insert in Hz as [-> | Hz]; [|apply Hy; exact Hz].
      apply lt_asym. exact E.
    + constructor; [constructor; assumption|].
      constructor; [exact E|].
      rewrite Forall_forall in *. intros z Hz.
      apply (le_trans _ (key y)); [exact E | apply Hy; exact Hz].
Qed.

Lemma stable_sort_sorted (l : list A) :
  StronglySorted le (stable_sort lt key l).
Proof.
  induction l as [|x l IH]; simpl; [constructor | apply insert_sorted, IH].
Qed.

Lemma snoc_sorted (R : A -> A -> Prop) (x : A) (l : list A) :
  StronglySorted R l -> Forall (fun a => R a x) l ->
  StronglySorted R (l ++ [x]).
Proof.
  induction 1 as [|y l Hl IH Hy]; intros Hx; simpl.
  - repeat constructor.
  - inversion Hx as [|? ? Hyx Hlx]; subst. constructor.
    + apply IH. exact Hlx.
    + apply Forall_app. split; [exact Hy | repeat constructor; exact Hyx].
Qed.

Lemma rev_sorted (R : A -> A -> Prop) (l : list A) :
  StronglySorted R l -> StronglySorted (fun a b => R b a) (rev l).
Proof.
  induction 1 as [|x l Hl IH Hx]; simpl; [constructor|].
  apply snoc_sorted; [exact IH|].
  rewrite Forall_forall in *. intros z Hz. apply Hx, in_rev, Hz.
Qed.

(** With [reverse=True] the keys never increase. *)
Lemma list_sort_reverse_sorted (l : list A) :
  StronglySorted (fun a b => lt (key a) (key b) = false)
    (list_sort lt key true l).
Proof. unfold list_sort. apply (rev_sorted le), stable_sort_sorted. Qed.

Lemma sorted_weaken (R R' : A -> A -> Prop) (l : list A) :
  (forall a b, R a b -> R' a b) -> StronglySorted R l -> StronglySorted R' l.
Proof.
  intros HR. induction 1 as [|x l Hl IH Hx]; constructor; [exact IH|].
  rewrite Forall_forall in *. intros z Hz. apply HR, Hx, Hz.
Qed.

Lemma firstn_sorted (R : A -> A -> Prop) (n : nat) :
  forall l, StronglySorted R l -> StronglySorted R (firstn n l).
Proof.
  induction n as [|n IH]; intros l Hl; [constructor|].
  destruct Hl as [|x l Hl Hx]; simpl; constructor.
  - apply IH. exact Hl.
  - rewrite Forall_forall in *. intros z Hz. apply Hx.
    apply (In_firstn n). exact Hz.
Qed.

Lemma slice_to_sorted (R : A -> A -> Prop) (l : list A) (n : Z) :
  StronglySorted R l -> StronglySorted R (slice_to l n).
Proof. unfold slice_to. destruct (n <? 0); apply firstn_sorted. Qed.

End SortedFacts.

(** ** The order on the sort keys *)

Section KeyOrder.
Import Py.

Lemma ascii_compare_refl (a : ascii) : Ascii.compare a a = Eq.
Proof. apply N.compare_refl. Qed.

Lemma ascii_compare_lt_trans (a b c : ascii) :
  Ascii.compare a b = Lt -> Ascii.compare b c = Lt -> Ascii.compare a c = Lt.
Proof.
  unfold Ascii.compare. rewrite !N.compare_lt_iff. apply N.lt_trans.
Qed.

Lemma string_leb_trans (a : string) :
  forall b c,
    String.leb a b = true -> String.leb b c = true -> String.leb a c = true.
Proof.
  unfold String.leb.
  induction a as [|x a IH]; intros [|y b] [|z c]; simpl; try easy.
  destruct (Ascii.compare x y) eqn:Hxy; destruct (Ascii.compare y z) eqn:Hyz;
    try easy.
  - apply Ascii.compare_eq_iff in Hxy, Hyz. subst.
    rewrite ascii_compare_refl. apply IH.
  - apply Ascii.compare_eq_iff in Hxy. subst. rewrite Hyz. easy.
  - apply Ascii.compare_eq_iff in Hyz. subst. rewrite Hxy. easy.
  - rewrite (ascii_compare_lt_trans _ _ _ Hxy Hyz). easy.
Qed.

Lemma string_ltb_leb (a b : string) :
  String.ltb a b = false <-> String.leb b a = true.
Proof.
  unfold String.ltb, String.leb. rewrite (String.compare_antisym b a).
  destruct (String.compare a b); simpl; split; congruence.
Qed.

Lemma float_lt_iff (a b : Q) : float_lt a b = true <-> (a < b)%Q.
Proof.
  unfold float_lt. rewrite Qlt_alt. destruct (a ?= b)%Q; split; congruence.
Qed.

(** [tuple_lt] fails exactly when the right key is below or equal in the
    lexicographic order. *)
Lemma tuple_lt_false_iff (x y : Q * string) :
  tuple_lt x y = false
  <-> (fst y < fst x)%Q
      \/ ((fst x == fst y)%Q /\ String.leb (snd y) (snd x) = true).
Proof.
  unfold tuple_lt. destruct (Qeq_bool (fst x) (fst y)) eqn:E.
  - apply Qeq_bool_iff in E. rewrite string_ltb_leb. split.
    + intros H. right. split; assumption.
    + intros [H | [_ H]]; [|exact H].
      rewrite E in H. exfalso. apply (Qlt_irrefl _ H).
  - assert (N : ~ (fst x == fst y)%Q)
      by (intros H; apply Qeq_bool_iff in H; congruence).
    split.
    + intros H. left.
      destruct (Q_dec (fst x) (fst y)) as [[H1 | H1] | H1]; [|exact H1|tauto].
      apply float_lt_iff in H1. congruence.
    + intros [H | [H _]]; [|tauto].
      destruct (float_lt (fst x) (fst y)) eqn:F; [|reflexivity].
      apply float_lt_iff in F. exfalso.
      apply (Qlt_irrefl (fst x)). apply (Qlt_trans _ (fst y)); assumption.
Qed.

Lemma tuple_lt_asym (x y : Q * string) :
  tuple_lt x y = true -> tuple_lt y x = false.
Proof.
  intros H. apply tuple_lt_false_iff.
  unfold tuple_lt in H. destruct (Qeq_bool (fst x) (fst y)) eqn:E.
  - right. apply Qeq_bool_iff in E. split; [symmetry; exact E|].
    unfold String.ltb in H. unfold String.leb.
    destruct (String.compare (snd x) (snd y)); congruence.
  - left. apply float_lt_iff. exact H.
Qed.

Lemma tuple_le_trans (x y z : Q * string) :
  tuple_lt y x = false -> tuple_lt z y = false -> tuple_lt z x = false.
Proof.
  rewrite !tuple_lt_false_iff.
  intros [H1 | [E1 L1]] [H2 | [E2 L2]].
  - left. apply (Qlt_trans _ (fst y)); assumption.
  - left. rewrite E2. exact H1.
  - left. rewrite <- E1. exact H2.
  - right. split; [rewrite E2; exact E1|].
    apply (string_leb_trans _ (snd y)); assumption.
Qed.

End KeyOrder.

(** ** The claims *)

Section Claims.
Import Py Server.
Local Open Scope string_scope.

Lemma is_identifier_of_match (query_type : string) :
  Re.re_match arxiv_id_pattern query_type = true ->
  is_identifier query_type = true.
Proof.
  intros H. unfold is_identifier. rewrite H.
  destruct query_type; [discriminate H | reflexivity].
Qed.

(** In search mode the result is the sorted, truncated output of the loop
    run with the cutoff, when the cutoff can be computed. *)
Lemma search_papers_search_mode {S : Str} client now days query_type
    max_results field keywords :
  is_identifier query_type = false ->
  search_papers client now days query_type max_results field keywords
  = bind (cutoff now days)
      (fun cutoff_date =>
         bind (retain_loop keywords cutoff_date
                 (client (query_search query_type max_results field keywords))
                 [])
           (fun papers =>
              Ok (slice_to (list_sort tuple_lt sort_key true papers)
                    max_results))).
Proof. intros H. unfold search_papers. rewrite H. reflexivity. Qed.

Lemma search_mode_inv {S : Str} client now days query_type max_results
    field keywords l :
  is_identifier query_type = false ->
  search_papers client now days query_type max_results field keywords
  = Ok l ->
  exists cutoff_date papers,
    cutoff now days = Ok cutoff_date
    /\ retain_loop keywords cutoff_date
         (client (query_search query_type max_results field keywords)) []
       = Ok papers
    /\ l = slice_to (list_sort tuple_lt sort_key true papers) max_results.
Proof.
  intros Hid H. rewrite search_papers_search_mode in H by exact Hid.
  destruct (cutoff now days) as [c|e]; [|discriminate]. cbn [bind] in H.
  destruct (retain_loop keywords c
              (client (query_search query_type max_results field keywords))
              []) as [papers|e] eqn:Hloop; [|discriminate].
  cbn [bind] in H. injection H as <-. exists c, papers. repeat split.
  exact Hloop.
Qed.

Lemma search_papers_id_mode {S : Str} client now days query_type max_results
    field keywords :
  is_identifier query_type = true ->
  search_papers client now days query_type max_results field keywords
  = match client (id_search query_type) with
    | Arxiv.Yield paper _ => Ok [to_dict paper 1%Q]
    | Arxiv.Stop => Ok []
    | Arxiv.Throw e => Raise e
    end.
Proof. intros H. unfold search_papers. rewrite H. reflexivity. Qed.

(** C2, as amended: in search mode with a list of keywords, when the
    instant [now - days] is one a [datetime] can hold, the records handed
    to the ranking are exactly those for which the keywords are non-empty
    or the publication instant is at least [now - days], in the order of
    retrieval; with a keyword every record is kept, however old; without
    one every record older than [now - days] is dropped. *)
Theorem C2_retention_rule {S : Str} :
  forall client now days query_type max_results field keywords raw,
    is_identifier query_type = false ->
    Spec.in_range now days ->
    client (query_search query_type max_results field (Some keywords))
    = Arxiv.yield_all raw ->
    let kept :=
      filter (fun p => if Spec.retained_dec now days keywords p
                       then true else false) raw in
    let ranked :=
      map (fun p => to_dict p (calculate_relevance_score p (Some keywords)))
        kept in
    cutoff now days = Ok (now - days * Spec.day)
    /\ retain_loop (Some keywords) (now - days * Spec.day)
         (Arxiv.yield_all raw) [] = Ok ranked
    /\ search_papers client now days query_type max_results field
         (Some keywords)
       = Ok (slice_to (list_sort tuple_lt sort_key true ranked) max_results)
    /\ (forall p, In p kept <->
                  In p raw
                  /\ (keywords <> []
                      \/ now - days * Spec.day <= Arxiv.published p))
    /\ (keywords <> [] -> kept = raw)
    /\ (keywords = [] ->
        forall p, Arxiv.published p < now - days * Spec.day ->
                  ~ In p kept).
Proof.
  intros client now days query_type max_results field keywords raw Hid Hr Hcl
         kept ranked.
  pose proof (cutoff_in_range now days Hr) as Hc.
  assert (Hloop : retain_loop (Some keywords) (now - days * Spec.day)
                    (Arxiv.yield_all raw) [] = Ok ranked)
    by (rewrite retain_loop_list; reflexivity).
  assert (Hin : forall p, In p kept <->
                          In p raw /\ Spec.retained now days keywords p).
  { intros p. unfold kept. rewrite filter_In.
    destruct (Spec.retained_dec now days keywords p); intuition discriminate. }
  split; [exact Hc|]. split; [exact Hloop|].
  split; [|split; [exact Hin|split]].
  - rewrite search_papers_search_mode by exact Hid.
    rewrite Hc. cbn [bind]. rewrite Hcl, Hloop. reflexivity.
  - intros Hk. unfold kept. clear -Hk.
    induction raw as [|p raw IH]; [reflexivity|]. cbn [filter].
    destruct (Spec.retained_dec now days keywords p) as [_ | N].
    + rewrite IH. reflexivity.
    + exfalso. apply N. left. exact Hk.
  - intros Hk p Hold Hp. apply Hin in Hp as [_ [Hne | Hd]].
    + apply Hne. exact Hk.
    + lia.
Qed.

(** A search without keywords made two days after the first of two papers
    with [days=1]: the paper published exactly one day before is kept, the
    one published two days before is dropped. *)
Lemma C2_retention_rule_witness :
  search_papers (Examples.serve [Examples.routing; Examples.dense])
    (Examples.mar_2021 + 2 * 86400000000) 1 "moe" 100 None (Some [])
  = Ok [to_dict Examples.routing 1%Q].
Proof.
  destruct (C2_retention_rule
              (Examples.serve [Examples.routing; Examples.dense])
              (Examples.mar_2021 + 2 * 86400000000) 1 "moe" 100 None []
              [Examples.routing; Examples.dense] eq_refl)
    as (_ & _ & H & _).
  - unfold Spec.in_range, Spec.day, Examples.mar_2021. lia.
  - reflexivity.
  - exact H.
Defined.

(** From 2025-11-03 00:00 UTC the instant 739558 days earlier is before
    [datetime.min]: the search with a keyword raises [OverflowError] and
    keeps nothing, where one day less returns the paper. *)
Lemma C2_counterexample :
  is_identifier "moe" = false
  /\ search_papers (Examples.serve [Examples.routing]) Examples.nov_2025
       739558 "moe" 100 None (Some ["moe"])
     = Raise (OverflowError "date value out of range")
  /\ search_papers (Examples.serve [Examples.routing]) Examples.nov_2025
       739557 "moe" 100 None (Some ["moe"])
     = Ok [to_dict Examples.routing (int_truediv 2 3)].
Proof.
  split; [reflexivity|]. split; vm_compute; reflexivity.
Qed.



Lemma not_occurs_ci_test {S : Str} (k t : string) :
  str_in (lower k) (lower t) = false -> ~ Spec.occurs_ci k t.
Proof. intros E H. apply occurs_ci_iff in H. congruence. Qed.


(** C5: a [query_type] that matches the identifier pattern is looked up by
    identifier, with that very string, whatever the keywords, the field,
    the days, the clock and the result cap are; "2103.03404" and
    "2103.0340" match, "210.03404" does not and is sent as the free text
    of a search. *)
Theorem C5_identifier_routing {S : Str} :
  (forall client now days query_type max_results field keywords,
      Re.re_match arxiv_id_pattern query_type = true ->
      Arxiv.id_list (id_search query_type) = [query_type]
      /\ search_papers client now days query_type max_results field keywords
         = match client (id_search query_type) with
           | Arxiv.Yield paper _ => Ok [to_dict paper 1%Q]
           | Arxiv.Stop => Ok []
           | Arxiv.Throw e => Raise e
           end)
  /\ Re.re_match arxiv_id_pattern "2103.03404" = true
  /\ Re.re_match arxiv_id_pattern "2103.0340" = true
  /\ Re.re_match arxiv_id_pattern "210.03404" = false
  /\ final_query "210.03404" None None = "210.03404"
  /\ (forall client now days max_results field keywords,
        search_papers client now days "210.03404" max_results field keywords
        = bind (cutoff now days)
            (fun cutoff_date =>
               bind (retain_loop keywords cutoff_date
                       (client (query_search "210.03404" max_results field
                                  keywords)) [])
                 (fun papers =>
                    Ok (slice_to (list_sort tuple_lt sort_key true papers)
                          max_results)))).
Proof.
  split; [|do 4 (split; [reflexivity|])].
  - intros client now days query_type max_results field keywords H.
    split; [reflexivity|].
    apply search_papers_id_mode, is_identifier_of_match, H.
  - intros. apply search_papers_search_mode. reflexivity.
Qed.

(** The lookup of "2103.03404" returns the record found, scored 1.0, with
    keywords, a field and a window that would all exclude it. *)
Lemma C5_identifier_routing_witness :
  search_papers (Examples.serve [Examples.dense]) Examples.nov_2025
    0 "2103.03404" 5 (Some "math.AG") (Some ["quantum"])
  = Ok [to_dict Examples.dense 1%Q].
Proof.
  destruct C5_identifier_routing as (H & _).
  destruct (H (Examples.serve [Examples.dense]) Examples.nov_2025
              0 "2103.03404" 5 (Some "math.AG") (Some ["quantum"]) eq_refl)
    as (_ & E).
  exact E.
Defined.

(** C6: with an empty list of keywords every paper returned has the score
    1.0, in identifier mode and in search mode. *)
Theorem C6_empty_keywords_score_one {S : Str} :
  forall client now days query_type max_results field l,
    search_papers client now days query_type max_results field (Some [])
    = Ok l ->
    Forall (fun p => relevance_score p = 1%Q) l.
Proof.
  intros client now days query_type max_results field l H.
  destruct (is_identifier query_type) eqn:Hid.
  - rewrite search_papers_id_mode in H by exact Hid.
    destruct (client (id_search query_type)); try discriminate;
      injection H as <-; repeat constructor.
  - destruct (search_mode_inv _ _ _ _ _ _ _ _ Hid H)
      as (c & papers & _ & Hloop & ->).
    assert (Hp : Forall (fun p => relevance_score p = 1%Q) papers).
    { apply (retain_loop_scores _ _ _ (fun p => eq_refl) _ _ _
               (Forall_nil _) Hloop). }
    rewrite Forall_forall in *. intros x Hx.
    apply Hp. apply In_slice_to in Hx.
    apply (In_list_sort tuple_lt sort_key true x papers). exact Hx.
Qed.

(** A keyword-free search over two recent records returns both with the
    score 1.0. *)
Lemma C6_empty_keywords_score_one_witness :
  exists l,
    search_papers (Examples.serve [Examples.routing; Examples.dense])
      (Examples.mar_2021 + 86400000000) 7 "moe" 100 None (Some []) = Ok l
    /\ List.length l = 2%nat
    /\ Forall (fun p => relevance_score p = 1%Q) l.
Proof.
  eexists. split; [vm_compute; reflexivity|]. split; [reflexivity|].
  apply (C6_empty_keywords_score_one
           (Examples.serve [Examples.routing; Examples.dense])
           (Examples.mar_2021 + 86400000000) 7 "moe" 100 None).
  vm_compute. reflexivity.
Defined.

(** C7: with [max_results > 0] the list returned has at most [max_results]
    elements. *)
Theorem C7_length_at_most_max_results {S : Str} :
  forall client now days query_type max_results field keywords l,
    0 < max_results ->
    search_papers client now days query_type max_results field keywords
    = Ok l ->
    Z.of_nat (List.length l) <= max_results.
Proof.
  intros client now days query_type max_results field keywords l Hpos H.
  destruct (is_identifier query_type) eqn:Hid.
  - rewrite search_papers_id_mode in H by exact Hid.
    destruct (client (id_search query_type)); try discriminate;
      injection H as <-; cbn [List.length]; lia.
  - destruct (search_mode_inv _ _ _ _ _ _ _ _ Hid H)
      as (c & papers & _ & _ & ->).
    apply length_slice_to. lia.
Qed.

(** Three records retrieved, one asked for, one returned. *)
Lemma C7_length_at_most_max_results_witness :
  exists l,
    search_papers
      (Examples.serve [Examples.routing; Examples.dense; Examples.titled])
      Examples.nov_2025 7 "moe" 1 None (Some ["moe"]) = Ok l
    /\ List.length l = 1%nat
    /\ Z.of_nat (List.length l) <= 1.
Proof.
  eexists. split; [vm_compute; reflexivity|]. split; [reflexivity|].
  apply (C7_length_at_most_max_results
           (Examples.serve [Examples.routing; Examples.dense; Examples.titled])
           Examples.nov_2025 7 "moe" 1 None (Some ["moe"])).
  - lia.
  - vm_compute. reflexivity.
Defined.

(** C8: in identifier mode a lookup that yields nothing returns the empty
    list and raises nothing; a lookup that yields a record returns that
    one record with the score 1.0. *)
Theorem C8_identifier_lookup_result {S : Str} :
  forall client now days query_type max_results field keywords,
    is_identifier query_type = true ->
    (client (id_search query_type) = Arxiv.Stop ->
     search_papers client now days query_type max_results field keywords
     = Ok [])
    /\ (forall paper rest,
          client (id_search query_type) = Arxiv.Yield paper rest ->
          search_papers client now days query_type max_results field keywords
          = Ok [to_dict paper 1%Q]
          /\ relevance_score (to_dict paper 1%Q) = 1%Q).
Proof.
  intros client now days query_type max_results field keywords Hid.
  rewrite search_papers_id_mode by exact Hid. split.
  - intros ->. reflexivity.
  - intros paper rest ->. split; reflexivity.
Qed.

(** The identifier "2103.03404" is not found. *)
Lemma C8_identifier_lookup_result_witness :
  search_papers (Examples.serve []) Examples.nov_2025 7 "2103.03404" 100
    None None = Ok [].
Proof.
  destruct (C8_identifier_lookup_result (Examples.serve [])
              Examples.nov_2025 7 "2103.03404" 100 None None eq_refl)
    as (H & _).
  apply H. reflexivity.
Defined.

(** C9: the text of an empty list is the fixed sentence, whatever
    [show_score] is; [format_papers] is a total function of its two
    arguments. *)
Theorem C9_format_papers_empty :
  forall show_score : bool, format_papers [] show_score = no_papers_text.
Proof. intros show_score. reflexivity. Qed.

(** C10: the pattern is anchored at the start only: a [query_type] made of
    a string of the pattern's language followed by any characters is
    looked up by identifier, and the identifier sent is the whole
    [query_type]. *)
Theorem C10_identifier_prefix_only {S : Str} :
  forall p rest : string,
    Re.matches arxiv_id_pattern p ->
    Re.re_match arxiv_id_pattern (p ++ rest) = true
    /\ is_identifier (p ++ rest) = true
    /\ Arxiv.id_list (id_search (p ++ rest)) = [p ++ rest]
    /\ forall client now days max_results field keywords,
         search_papers client now days (p ++ rest) max_results field keywords
         = match client (id_search (p ++ rest)) with
           | Arxiv.Yield paper _ => Ok [to_dict paper 1%Q]
           | Arxiv.Stop => Ok []
           | Arxiv.Throw e => Raise e
           end.
Proof.
  intros p rest Hp.
  assert (Hm : Re.re_match arxiv_id_pattern (p ++ rest) = true)
    by (apply re_match_prefix; exact Hp).
  pose proof (is_identifier_of_match _ Hm) as Hid.
  repeat split; try assumption.
  intros. apply search_papers_id_mode. exact Hid.
Qed.

(** "2103.03404 survey" is sent whole as an identifier. *)
Lemma C10_identifier_prefix_only_witness :
  is_identifier "2103.03404 survey" = true
  /\ Arxiv.id_list (id_search "2103.03404 survey") = ["2103.03404 survey"].
Proof.
  destruct (C10_identifier_prefix_only "2103.03404" " survey")
    as (_ & H1 & H2 & _).
  - apply re_fullmatch_spec. reflexivity.
  - split; [exact H1 | exact H2].
Defined.

(** X1: what the final sort does: in search mode the scores of the
    result never decrease and, where two scores are equal, the dates never
    increase. *)
Theorem search_papers_order {S : Str} :
  forall client now days query_type max_results field keywords l,
    is_identifier query_type = false ->
    search_papers client now days query_type max_results field keywords
    = Ok l ->
    StronglySorted Spec.score_asc_then_date_desc l.
Proof.
  intros client now days query_type max_results field keywords l Hid H.
  destruct (search_mode_inv _ _ _ _ _ _ _ _ Hid H)
    as (c & papers & _ & _ & ->).
  apply slice_to_sorted.
  apply (sorted_weaken
           (fun a b => tuple_lt (sort_key a) (sort_key b) = false)).
  - intros a b Hab. apply tuple_lt_false_iff in Hab.
    unfold sort_key in Hab. cbn [fst snd] in Hab.
    unfold Spec.score_asc_then_date_desc.
    destruct Hab as [Hlt | [Heq Hd]]; [left; lra | right; split; [lra|exact Hd]].
  - apply list_sort_reverse_sorted.
    + apply tuple_lt_asym.
    + apply tuple_le_trans.
Qed.

(** C3, as amended: in search mode with [keywords=None], when the instant
    [now - days] is one a [datetime] can hold and the retrieval yields a
    first record, [len(keywords)] raises the [TypeError] at the retention
    check of that record, before any result, and the tool answers with
    the error text.  The date test and the scoring of an empty list of
    keywords are reached with [keywords=[]] only: for any other value of
    [keywords] the loop gives the same outcome for every cutoff, and with
    [None] it returns nothing once a record is yielded. *)
Theorem C3_none_keywords {S : Str} :
  forall client now (args : arguments) paper rest,
    arg_keywords args = None ->
    let days := get (arg_days args) 7 in
    let query_type := get (arg_query_type args) "moe" in
    let max_results := get (arg_max_results args) 100 in
    let field := arg_field args in
    is_identifier query_type = false ->
    Spec.in_range now days ->
    client (query_search query_type max_results field None)
    = Arxiv.Yield paper rest ->
    search_papers client now days query_type max_results field None
    = Raise (TypeError none_has_no_len)
    /\ handle_call_tool client now "papersearch" (Some args)
       = Ok [ {| type := "text"; text := error_marker ++ none_has_no_len |} ]
    /\ (forall keywords cutoff_date cutoff_date' rs papers,
          keywords <> Some [] ->
          retain_loop keywords cutoff_date rs papers
          = retain_loop keywords cutoff_date' rs papers)
    /\ (forall keywords cutoff_date p rs papers l,
          retain_loop keywords cutoff_date (Arxiv.Yield p rs) papers = Ok l ->
          keywords <> None).
Proof.
  intros client now args paper rest Hkw days query_type max_results field
         Hid Hr Hcl.
  assert (Hs : search_papers client now days query_type max_results field None
               = Raise (TypeError none_has_no_len)).
  { rewrite search_papers_search_mode by exact Hid.
    rewrite (cutoff_in_range now days Hr). cbn [bind].
    rewrite retain_loop_none, Hcl. reflexivity. }
  split; [exact Hs|]. split; [|split].
  - unfold handle_call_tool. cbn [get negb String.eqb Ascii.eqb Bool.eqb].
    rewrite Hkw. fold days query_type max_results field. rewrite Hs.
    reflexivity.
  - intros keywords c c' rs papers Hk. destruct keywords as [[|k ks]|].
    + congruence.
    + apply retain_loop_keywords.
    + rewrite !retain_loop_none. reflexivity.
  - intros keywords c p rs papers l H ->.
    rewrite retain_loop_none in H. discriminate H.
Qed.

(** With no argument at all and one record retrieved, the tool answers with
    the error text. *)
Lemma C3_none_keywords_witness :
  handle_call_tool (Examples.serve [Examples.routing]) Examples.nov_2025
    "papersearch" (Some no_arguments)
  = Ok [ {| type := "text"; text := error_marker ++ none_has_no_len |} ].
Proof.
  destruct (C3_none_keywords (Examples.serve [Examples.routing])
              Examples.nov_2025 no_arguments Examples.routing Arxiv.Stop
              eq_refl eq_refl) as (_ & E & _).
  - unfold Spec.in_range, Spec.day, Examples.nov_2025. cbn [get arg_days no_arguments]. lia.
  - reflexivity.
  - exact E.
Defined.

(** When the retrieval yields nothing, [keywords=None] raises nothing: the
    search returns the empty list and the tool answers with the fixed
    sentence, not with the error text.  When the instant [now - days] is
    before [datetime.min], a record is yielded or not, the exception is
    the [OverflowError] of the subtraction and not the [TypeError]. *)
Lemma C3_counterexample :
  is_identifier "moe" = false
  /\ search_papers (Examples.serve []) Examples.nov_2025 7 "moe" 100 None None
     = Ok []
  /\ (~ exists msg,
         search_papers (Examples.serve []) Examples.nov_2025 7 "moe" 100
           None None = Raise (TypeError msg))
  /\ handle_call_tool (Examples.serve []) Examples.nov_2025 "papersearch" None
     = Ok [ {| type := "text"; text := no_papers_text |} ]
  /\ search_papers (Examples.serve [Examples.routing]) Examples.nov_2025
       739558 "moe" 100 None None
     = Raise (OverflowError "date value out of range").
Proof.
  split; [reflexivity|]. split; [reflexivity|].
  split; [|split; [reflexivity | vm_compute; reflexivity]].
  intros [msg H]. discriminate H.
Qed.

(** C1: the claim asks for scores in descending order.  For the keyword
    "moe" and two records, one with "MoE" in its title and one without, the
    code returns the record that does not match first, and with
    [max_results=1] it returns only that one. *)
Theorem C1_lowest_score_first :
  let client := Examples.serve [Examples.routing; Examples.dense] in
  let low := to_dict Examples.dense 0%Q in
  let high := to_dict Examples.routing (int_truediv 2 3) in
  search_papers client Examples.nov_2025 7 "moe" 100 None (Some ["moe"])
  = Ok [low; high]
  /\ (relevance_score low < relevance_score high)%Q
  /\ ~ Spec.score_desc_then_date_desc low high
  /\ search_papers client Examples.nov_2025 7 "moe" 1 None (Some ["moe"])
     = Ok [low].
Proof.
  cbv zeta. split; [vm_compute; reflexivity|].
  split; [reflexivity|]. split; [|vm_compute; reflexivity].
  intros [H | [H _]]; vm_compute in H; discriminate H.
Qed.

End Claims.

(** ** True division *)

Section FloatFacts.
Import Py.
Local Open Scope Q_scope.

Lemma round_half_even_le (x : Q) (N : Z) :
  x <= inject_Z N -> (round_half_even x <= N)%Z.
Proof.
  intros H. unfold round_half_even.
  pose proof (Qfloor_le x) as Hf.
  assert (Hn : (Qfloor x <= N)%Z).
  { rewrite Zle_Qle. apply (Qle_trans _ x); assumption. }
  assert (Hup : 0 < x - inject_Z (Qfloor x) -> (Qfloor x + 1 <= N)%Z).
  { intros Hpos. assert (Hlt : inject_Z (Qfloor x) < inject_Z N) by lra.
    rewrite <- Zlt_Qlt in Hlt. lia. }
  destruct (x - inject_Z (Qfloor x) ?= 1 # 2) eqn:E.
  - apply Qeq_alt in E. destruct (Z.even (Qfloor x)); [exact Hn|].
    apply Hup. lra.
  - exact Hn.
  - apply Qgt_alt in E. apply Hup. lra.
Qed.

Lemma round_half_even_ge (x : Q) (N : Z) :
  inject_Z N <= x -> (N <= round_half_even x)%Z.
Proof.
  intros H. unfold round_half_even.
  assert (Hn : (N <= Qfloor x)%Z).
  { rewrite <- (Qfloor_Z N). apply Qfloor_resp_le. exact H. }
  destruct (x - inject_Z (Qfloor x) ?= 1 # 2);
    [destruct (Z.even (Qfloor x))| |]; lia.
Qed.

Lemma two_power_pos (z : Z) : 0 < 2 ^ z.
Proof. apply Qpower_0_lt. reflexivity. Qed.

Lemma two_power_opp (k : Z) : 2 ^ k * 2 ^ (- k) == 1.
Proof.
  rewrite <- Qpower_plus by discriminate.
  replace (k + - k)%Z with 0%Z by lia. reflexivity.
Qed.

Lemma two_power_Z (k : Z) : (0 <= k)%Z -> 2 ^ k == inject_Z (2 ^ k).
Proof. intros H. rewrite Zpower_Qpower by exact H. reflexivity. Qed.

(** The exponent chosen by [binary64] brackets the number. *)
Lemma log2_bracket (a : Q) :
  0 < a ->
  2 ^ (Z.log2 (Qnum a) - Z.log2 (Zpos (Qden a)) - 1) <= a.
Proof.
  intros Ha. destruct a as [n d]. cbn [Qnum Qden].
  assert (Hn : (0 < n)%Z) by (unfold Qlt in Ha; cbn in Ha; lia).
  set (x := Z.log2 n). set (y := Z.log2 (Zpos d)).
  assert (Hx : (2 ^ x <= n)%Z) by (apply Z.log2_spec; exact Hn).
  assert (Hy : (Zpos d < 2 ^ (y + 1))%Z).
  { replace (y + 1)%Z with (Z.succ y) by lia. apply Z.log2_spec. lia. }
  assert (Hx0 : (0 <= x)%Z) by apply Z.log2_nonneg.
  assert (Hy0 : (0 <= y)%Z) by apply Z.log2_nonneg.
  replace (x - y - 1)%Z with (x + - (y + 1))%Z by lia.
  rewrite Qpower_plus by discriminate. rewrite Qpower_opp.
  rewrite !two_power_Z by lia.
  set (X := (2 ^ x)%Z) in *. set (Y := (2 ^ (y + 1))%Z) in *.
  assert (HY : (0 < Y)%Z) by lia.
  assert (HX : (0 < X)%Z) by (apply Z.pow_pos_nonneg; lia).
  apply Qle_shift_div_r; [rewrite <- (Zlt_Qlt 0); exact HY|].
  unfold Qle, Qmult. cbn. nia.
Qed.

Lemma binary64_positive (a : Q) :
  0 < a ->
  exists (m e : Z),
    binary64 a = Qred (inject_Z m * 2 ^ (e - 52))
    /\ (2 ^ 52 <= m)%Z
    /\ (a <= 1 -> (e <= 0)%Z /\ inject_Z m <= 2 ^ (52 - e))
    /\ (1 <= a -> (0 <= e)%Z).
Proof.
  intros Ha. pose proof (log2_bracket a Ha) as Hlow.
  destruct a as [[|p|p] d]; try (exfalso; unfold Qlt in Ha; cbn in Ha; lia).
  unfold binary64.
  replace (Qeq_bool (Zpos p # d) 0) with false by reflexivity.
  replace (float_lt (Zpos p # d) 0) with false by reflexivity.
  change (Qabs (Zpos p # d)) with (Zpos p # d).
  cbn [Qnum Qden] in *.
  set (a := Zpos p # d) in *.
  set (e0 := (Z.log2 (Zpos p) - Z.log2 (Zpos d))%Z) in *.
  set (e := if Qle_bool (2 ^ e0) a then e0 else (e0 - 1)%Z).
  assert (He : 2 ^ e <= a).
  { unfold e. destruct (Qle_bool (2 ^ e0) a) eqn:T; [|exact Hlow].
    apply Qle_bool_iff. exact T. }
  assert (Hm : (2 ^ 52 <= round_half_even (a * 2 ^ (52 - e)))%Z).
  { apply round_half_even_ge. rewrite <- two_power_Z by lia.
    replace 52%Z with (e + (52 - e))%Z at 1 by lia.
    rewrite Qpower_plus by discriminate.
    apply Qmult_le_compat_r; [exact He | apply Qlt_le_weak, two_power_pos]. }
  exists (round_half_even (a * 2 ^ (52 - e))), e.
  split; [reflexivity|]. split; [exact Hm|]. split.
  - intros H1.
    assert (Hpd : (Zpos p <= Zpos d)%Z)
      by (unfold Qle in H1; cbn in H1; lia).
    assert (He0 : (e0 <= 0)%Z)
      by (unfold e0; pose proof (Z.log2_le_mono _ _ Hpd); lia).
    assert (He' : (e <= 0)%Z)
      by (unfold e; destruct (Qle_bool (2 ^ e0) a); lia).
    split; [exact He'|].
    apply (Qle_trans _ (inject_Z (2 ^ (52 - e))));
      [|rewrite two_power_Z by lia; apply Qle_refl].
    rewrite <- Zle_Qle. apply round_half_even_le.
    apply (Qle_trans _ (1 * 2 ^ (52 - e))).
    + apply Qmult_le_compat_r; [exact H1 | apply Qlt_le_weak, two_power_pos].
    + rewrite Qmult_1_l, two_power_Z by lia. apply Qle_refl.
  - intros H1.
    assert (Hpd : (Zpos d <= Zpos p)%Z)
      by (unfold Qle in H1; cbn in H1; lia).
    assert (He0 : (0 <= e0)%Z)
      by (unfold e0; pose proof (Z.log2_le_mono _ _ Hpd); lia).
    unfold e. destruct (Qle_bool (2 ^ e0) a) eqn:T; [exact He0|].
    destruct (Z.eq_dec e0 0) as [Z0 | NZ]; [|lia].
    exfalso. rewrite Z0 in T.
    assert (T' : Qle_bool (2 ^ 0) a = true) by (apply Qle_bool_iff; exact H1).
    congruence.
Qed.

Lemma Qred_zero (v : Q) : Qred v = 0 <-> v == 0.
Proof.
  split.
  - intros H. rewrite <- (Qred_correct v), H. reflexivity.
  - intros H. apply (Qred_complete v 0). exact H.
Qed.

(** True division gives zero for a zero quotient only. *)
Lemma binary64_zero_iff (q : Q) : 0 <= q -> (binary64 q = 0 <-> q == 0).
Proof.
  intros Hq. split.
  - intros H. destruct (Qeq_dec q 0) as [E | N]; [exact E|]. exfalso.
    assert (Hpos : 0 < q) by (apply Qle_lteq in Hq as [L | E]; [exact L | symmetry in E; tauto]).
    destruct (binary64_positive q Hpos) as (m & e & Hb & Hm & _).
    rewrite Hb in H. apply Qred_zero in H.
    assert (Hv : 0 < inject_Z m * 2 ^ (e - 52)).
    { apply Qmult_lt_0_compat; [|apply two_power_pos].
      rewrite <- (Zlt_Qlt 0). lia. }
    rewrite H in Hv. apply (Qlt_irrefl 0 Hv).
  - intros E. unfold binary64.
    replace (Qeq_bool q 0) with true; [reflexivity|].
    symmetry. apply Qeq_bool_iff. exact E.
Qed.

Lemma binary64_range (q : Q) :
  0 <= q -> q <= 1 -> 0 <= binary64 q /\ binary64 q <= 1.
Proof.
  intros H0 H1. destruct (Qeq_dec q 0) as [E | N].
  - replace (binary64 q) with 0; [split; [apply Qle_refl | discriminate]|].
    symmetry. apply binary64_zero_iff; assumption.
  - assert (Hpos : 0 < q) by (apply Qle_lteq in H0 as [L | E]; [exact L | symmetry in E; tauto]).
    destruct (binary64_positive q Hpos) as (m & e & Hb & Hm & Hle & _).
    destruct (Hle H1) as [He Hmle]. rewrite Hb, Qred_correct. split.
    + apply Qmult_le_0_compat; [|apply Qlt_le_weak, two_power_pos].
      rewrite <- (Zle_Qle 0). lia.
    + rewrite <- (two_power_opp (52 - e)).
      replace (e - 52)%Z with (- (52 - e))%Z by lia.
      apply Qmult_le_compat_r; [exact Hmle | apply Qlt_le_weak, two_power_pos].
Qed.

Lemma binary64_one (q : Q) : q == 1 -> binary64 q = 1.
Proof.
  intros E.
  assert (Hpos : 0 < q) by (rewrite E; reflexivity).
  destruct (binary64_positive q Hpos) as (m & e & Hb & Hm & Hle & Hge).
  destruct Hle as [He Hmle]; [rewrite E; apply Qle_refl|].
  assert (He0 : (0 <= e)%Z) by (apply Hge; rewrite E; apply Qle_refl).
  assert (e = 0%Z) by lia. subst e.
  rewrite two_power_Z in Hmle by lia. rewrite <- Zle_Qle in Hmle.
  assert (m = (2 ^ 52)%Z) by lia. subst m.
  rewrite Hb. reflexivity.
Qed.

End FloatFacts.

(** ** More on the score *)

Section ScoreProperties.
Import Py Server.
Local Open Scope string_scope.
Context {S : Str}.

Lemma gain_bounds (paper : Arxiv.Result) (k : string) :
  0 <= gain paper k <= 3.
Proof.
  unfold gain.
  destruct (str_in (lower k) (lower (Arxiv.title paper)));
    destruct (str_in (lower k) (lower (Arxiv.summary paper))); lia.
Qed.

Lemma sum_gain_bounds (paper : Arxiv.Result) (kws : list string) :
  0 <= Spec.sum (map (gain paper) kws) <= 3 * Z.of_nat (List.length kws).
Proof.
  induction kws as [|k kws IH]; cbn [map Spec.sum fold_right List.length].
  - lia.
  - fold (Spec.sum (map (gain paper) kws)).
    pose proof (gain_bounds paper k). lia.
Qed.

Lemma sum_gain_zero (paper : Arxiv.Result) (kws : list string) :
  Spec.sum (map (gain paper) kws) = 0
  <-> forall k, In k kws -> gain paper k = 0.
Proof.
  induction kws as [|k kws IH]; cbn [map Spec.sum fold_right In].
  - split; [intros _ k [] | reflexivity].
  - fold (Spec.sum (map (gain paper) kws)).
    pose proof (gain_bounds paper k). pose proof (sum_gain_bounds paper kws).
    split.
    + intros H1 k' [<- | Hk]; [lia | apply IH; [lia | exact Hk]].
    + intros Hall. rewrite (Hall k (or_introl eq_refl)).
      rewrite (proj2 IH); [reflexivity|].
      intros k' Hk. apply Hall. right. exact Hk.
Qed.

Lemma sum_gain_full (paper : Arxiv.Result) (kws : list string) :
  (forall k, In k kws -> gain paper k = 3) ->
  Spec.sum (map (gain paper) kws) = 3 * Z.of_nat (List.length kws).
Proof.
  induction kws as [|k kws IH]; intros Hall;
    cbn [map Spec.sum fold_right List.length]; [reflexivity|].
  fold (Spec.sum (map (gain paper) kws)).
  rewrite (Hall k (or_introl eq_refl)), IH; [lia|].
  intros k' Hk. apply Hall. right. exact Hk.
Qed.

Lemma gain_zero_iff (paper : Arxiv.Result) (k : string) :
  gain paper k = 0
  <-> ~ Spec.occurs_ci k (Arxiv.title paper)
      /\ ~ Spec.occurs_ci k (Arxiv.summary paper).
Proof.
  unfold gain. rewrite <- !occurs_ci_iff.
  destruct (str_in (lower k) (lower (Arxiv.title paper)));
    destruct (str_in (lower k) (lower (Arxiv.summary paper)));
    split; try lia; try (intros [? ?]; congruence);
    intros _; split; discriminate.
Qed.

Lemma gain_full_iff (paper : Arxiv.Result) (k : string) :
  gain paper k = 3
  <-> Spec.occurs_ci k (Arxiv.title paper)
      /\ Spec.occurs_ci k (Arxiv.summary paper).
Proof.
  unfold gain. rewrite <- !occurs_ci_iff.
  destruct (str_in (lower k) (lower (Arxiv.title paper)));
    destruct (str_in (lower k) (lower (Arxiv.summary paper)));
    split; try lia; try (intros [? ?]; congruence);
    intros _; split; reflexivity.
Qed.

Lemma quotient_range (s t : Z) :
  0 <= s <= t -> 0 < t ->
  (0 <= inject_Z s / inject_Z t /\ inject_Z s / inject_Z t <= 1)%Q.
Proof.
  intros Hs Ht.
  assert (HT : (0 < inject_Z t)%Q) by (rewrite <- (Zlt_Qlt 0); exact Ht).
  split.
  - apply Qle_shift_div_l; [exact HT|]. rewrite Qmult_0_l.
    rewrite <- (Zle_Qle 0). lia.
  - apply Qle_shift_div_r; [exact HT|]. rewrite Qmult_1_l.
    rewrite <- Zle_Qle. lia.
Qed.

Lemma quotient_zero_iff (s t : Z) :
  0 < t -> ((inject_Z s / inject_Z t == 0)%Q <-> s = 0).
Proof.
  intros Ht. destruct t as [|p|p]; try lia.
  unfold Qeq, Qdiv, Qmult, Qinv, inject_Z. cbn [Qnum Qden].
  rewrite !Z.mul_1_r, Z.mul_0_l. reflexivity.
Qed.

Lemma quotient_one (t : Z) : 0 < t -> (inject_Z t / inject_Z t == 1)%Q.
Proof.
  intros Ht. apply Qmult_inv_r. intros H.
  unfold Qeq in H. cbn in H. lia.
Qed.

(** X9: the score lies between 0 and 1, for every paper and every value
    of [keywords]. *)
Theorem score_in_unit_interval :
  forall (paper : Arxiv.Result) (keywords : option (list string)),
    (0 <= calculate_relevance_score paper keywords
     /\ calculate_relevance_score paper keywords <= 1)%Q.
Proof.
  intros paper [[|k ks]|]; try (split; discriminate).
  rewrite calculate_relevance_score_nonempty.
  pose proof (sum_gain_bounds paper (k :: ks)) as Hs.
  assert (Ht : 0 < 3 * Z.of_nat (List.length (k :: ks)))
    by (cbn [List.length]; lia).
  unfold int_truediv.
  destruct (quotient_range _ _ Hs Ht) as [H0 H1].
  apply binary64_range; assumption.
Qed.

(** X10: for a non-empty list of keywords the score is 0 exactly when no
    keyword occurs in the title or in the summary, and it is 1 when every
    keyword occurs in both, occurrence being Python's test on the
    lower-case forms, whatever [str.lower] does. *)
Theorem score_zero_and_one :
  forall (paper : Arxiv.Result) (keywords : list string),
    keywords <> [] ->
    (calculate_relevance_score paper (Some keywords) = 0%Q
     <-> forall k, In k keywords ->
                   ~ Spec.occurs_ci k (Arxiv.title paper)
                   /\ ~ Spec.occurs_ci k (Arxiv.summary paper))
    /\ ((forall k, In k keywords ->
                   Spec.occurs_ci k (Arxiv.title paper)
                   /\ Spec.occurs_ci k (Arxiv.summary paper)) ->
        calculate_relevance_score paper (Some keywords) = 1%Q).
Proof.
  intros paper [|k ks] Hne; [congruence|].
  rewrite calculate_relevance_score_nonempty.
  pose proof (sum_gain_bounds paper (k :: ks)) as Hs.
  assert (Ht : 0 < 3 * Z.of_nat (List.length (k :: ks)))
    by (cbn [List.length]; lia).
  unfold int_truediv. split.
  - rewrite binary64_zero_iff by (apply quotient_range; assumption).
    rewrite quotient_zero_iff by exact Ht. rewrite sum_gain_zero.
    split; intros H k' Hk; apply gain_zero_iff, H, Hk.
  - intros Hall. apply binary64_one.
    rewrite sum_gain_full; [apply quotient_one; exact Ht|].
    intros k' Hk. apply gain_full_iff, Hall, Hk.
Qed.

Lemma gain_lower (paper paper' : Arxiv.Result) (k k' : string) :
  lower (Arxiv.title paper) = lower (Arxiv.title paper') ->
  lower (Arxiv.summary paper) = lower (Arxiv.summary paper') ->
  lower k = lower k' ->
  gain paper k = gain paper' k'.
Proof. intros Ht Hs Hk. unfold gain. rewrite Ht, Hs, Hk. reflexivity. Qed.

(** X11: the score depends on the keywords, the title and the summary
    through what [str.lower] makes of them only, whatever [str.lower]
    does. *)
Theorem score_ignores_case :
  forall (paper paper' : Arxiv.Result) (keywords keywords' : list string),
    lower (Arxiv.title paper) = lower (Arxiv.title paper') ->
    lower (Arxiv.summary paper) = lower (Arxiv.summary paper') ->
    map lower keywords = map lower keywords' ->
    calculate_relevance_score paper (Some keywords)
    = calculate_relevance_score paper' (Some keywords').
Proof.
  intros paper paper' keywords keywords' Ht Hs Hk.
  assert (Hg : map (gain paper) keywords = map (gain paper') keywords').
  { revert keywords' Hk.
    induction keywords as [|k ks IH]; intros [|k' ks'] Hk;
      try discriminate; [reflexivity|].
    cbn [map] in *. injection Hk as Hk1 Hk2.
    rewrite (gain_lower paper paper' k k' Ht Hs Hk1), (IH ks' Hk2).
    reflexivity. }
  assert (Hl : List.length keywords = List.length keywords')
    by (rewrite <- (length_map lower keywords), Hk; apply length_map).
  destruct keywords as [|k ks]; destruct keywords' as [|k' ks'];
    try discriminate; [reflexivity|].
  rewrite !calculate_relevance_score_nonempty, Hg, Hl. reflexivity.
Qed.

Lemma sum_permutation (l l' : list Z) :
  Permutation l l' -> Spec.sum l = Spec.sum l'.
Proof.
  induction 1 as [|x l l' _ IH|x y l|l l' l'' _ IH1 _ IH2].
  - reflexivity.
  - change (x + Spec.sum l = x + Spec.sum l'). lia.
  - change (y + (x + Spec.sum l) = x + (y + Spec.sum l)). lia.
  - congruence.
Qed.

(** X12: the score does not depend on the order of the keywords. *)
Theorem score_ignores_keyword_order :
  forall (paper : Arxiv.Result) (keywords keywords' : list string),
    Permutation keywords keywords' ->
    calculate_relevance_score paper (Some keywords)
    = calculate_relevance_score paper (Some keywords').
Proof.
  intros paper keywords keywords' HP.
  pose proof (Permutation_length HP) as Hl.
  pose proof (sum_permutation _ _ (Permutation_map (gain paper) HP)) as Hs.
  destruct keywords as [|k ks]; destruct keywords' as [|k' ks'];
    try discriminate; [reflexivity|].
  rewrite !calculate_relevance_score_nonempty, Hs, Hl. reflexivity.
Qed.

End ScoreProperties.

(** ** More on sorting and slicing *)

Section SortPermutation.
Import Py.
Context {A K : Type} (lt : K -> K -> bool) (key : A -> K).

Lemma insert_permutation (x : A) (l : list A) :
  Permutation (insert lt key x l) (x :: l).
Proof.
  induction l as [|y l IH]; simpl; [reflexivity|].
  destruct (lt (key y) (key x)); [|reflexivity].
  rewrite IH. apply perm_swap.
Qed.

Lemma stable_sort_permutation (l : list A) :
  Permutation (stable_sort lt key l) l.
Proof.
  induction l as [|x l IH]; simpl; [reflexivity|].
  rewrite insert_permutation, IH. reflexivity.
Qed.

Lemma list_sort_permutation (reverse : bool) (l : list A) :
  Permutation (list_sort lt key reverse l) l.
Proof.
  unfold list_sort. destruct reverse; [|apply stable_sort_permutation].
  rewrite <- Permutation_rev, stable_sort_permutation, <- Permutation_rev.
  reflexivity.
Qed.

(** Elements that the order does not separate keep their places. *)
Variable P : A -> bool.
Hypothesis P_class :
  forall a b, P a = true -> P b = true -> lt (key a) (key b) = false.

Lemma insert_filter (x : A) (l : list A) :
  filter P (insert lt key x l) = filter P (x :: l).
Proof.
  induction l as [|y l IH]; [reflexivity|]. cbn [insert].
  destruct (lt (key y) (key x)) eqn:E; [|reflexivity].
  cbn [filter] in *. rewrite IH.
  destruct (P x) eqn:Px; destruct (P y) eqn:Py; try reflexivity.
  rewrite (P_class y x Py Px) in E. discriminate.
Qed.

Lemma stable_sort_filter (l : list A) :
  filter P (stable_sort lt key l) = filter P l.
Proof.
  induction l as [|x l IH]; [reflexivity|].
  cbn [stable_sort fold_right]. fold (stable_sort lt key l).
  rewrite insert_filter. cbn [filter]. rewrite IH. reflexivity.
Qed.

Lemma list_sort_filter (reverse : bool) (l : list A) :
  filter P (list_sort lt key reverse l) = filter P l.
Proof.
  unfold list_sort. destruct reverse; [|apply stable_sort_filter].
  rewrite filter_rev, stable_sort_filter, filter_rev, rev_involutive.
  reflexivity.
Qed.

End SortPermutation.

Section SliceLength.
Import Py.
Context {A : Type}.

Lemma slice_to_length (l : list A) (n : Z) :
  Z.of_nat (List.length (slice_to l n))
  = if n <? 0 then Z.max 0 (Z.of_nat (List.length l) + n)
    else Z.min n (Z.of_nat (List.length l)).
Proof.
  unfold slice_to. destruct (n <? 0) eqn:E; rewrite length_firstn.
  - apply Z.ltb_lt in E. lia.
  - apply Z.ltb_ge in E. lia.
Qed.

Lemma slice_to_all (l : list A) (n : Z) :
  Z.of_nat (List.length l) <= n -> slice_to l n = l.
Proof.
  intros H. unfold slice_to.
  destruct (n <? 0) eqn:E; [apply Z.ltb_lt in E; lia|].
  apply firstn_all2. lia.
Qed.

Lemma sorted_weaken_in (R R' : A -> A -> Prop) (Q : A -> Prop) (l : list A) :
  (forall a b, Q a -> Q b -> R a b -> R' a b) ->
  Forall Q l -> StronglySorted R l -> StronglySorted R' l.
Proof.
  intros HR HQ. induction 1 as [|x l Hl IH Hx]; constructor.
  - apply IH. inversion HQ; assumption.
  - inversion HQ as [|? ? Qx Ql]; subst.
    rewrite Forall_forall in *. intros z Hz.
    apply HR; [exact Qx | apply Ql, Hz | apply Hx, Hz].
Qed.

End SliceLength.

(** ** More on [search_papers] *)

Section SearchProperties.
Import Py Server.
Local Open Scope string_scope.
Context {S : Str}.

Lemma sorted_papers_order (papers : list paper_dict) (n : Z) :
  StronglySorted Spec.score_asc_then_date_desc
    (slice_to (list_sort tuple_lt sort_key true papers) n).
Proof.
  apply slice_to_sorted.
  apply (sorted_weaken
           (fun a b => tuple_lt (sort_key a) (sort_key b) = false)).
  - intros a b Hab. apply tuple_lt_false_iff in Hab.
    unfold sort_key in Hab. cbn [fst snd] in Hab.
    unfold Spec.score_asc_then_date_desc.
    destruct Hab as [Hlt | [Heq Hd]];
      [left; lra | right; split; [lra | exact Hd]].
  - apply list_sort_reverse_sorted;
      [apply tuple_lt_asym | apply tuple_le_trans].
Qed.

(** X2: in search mode with an empty list of keywords the dates of the
    result never increase: the newest comes first. *)
Theorem keyword_free_search_newest_first :
  forall client now days query_type max_results field l,
    is_identifier query_type = false ->
    search_papers client now days query_type max_results field (Some [])
    = Ok l ->
    StronglySorted
      (fun a b => String.leb (published_date b) (published_date a) = true) l.
Proof.
  intros client now days query_type max_results field l Hid H.
  destruct (search_mode_inv _ _ _ _ _ _ _ _ Hid H)
    as (c & papers & _ & Hloop & ->).
  assert (Hp : Forall (fun p => relevance_score p = 1%Q) papers)
    by (apply (retain_loop_scores _ _ _ (fun p => eq_refl) _ _ _
                 (Forall_nil _) Hloop)).
  apply (sorted_weaken_in Spec.score_asc_then_date_desc _
           (fun p => relevance_score p = 1%Q)).
  - intros a b Ha Hb [Hlt | [_ Hd]]; [|exact Hd].
    rewrite Ha, Hb in Hlt. discriminate Hlt.
  - rewrite Forall_forall in *. intros x Hx. apply Hp.
    apply In_slice_to in Hx.
    apply (In_list_sort tuple_lt sort_key true x papers). exact Hx.
  - apply sorted_papers_order.
Qed.

(** X3: in search mode the result is made of papers the loop kept; its
    length is [min(max_results, kept)] for a non-negative [max_results]
    and [max(0, kept + max_results)] for a negative one; when
    [max_results] is at least the number kept the result is a
    rearrangement of them. *)
Theorem search_result_size :
  forall client now days query_type max_results field keywords l,
    is_identifier query_type = false ->
    search_papers client now days query_type max_results field keywords
    = Ok l ->
    exists cutoff_date papers,
      cutoff now days = Ok cutoff_date
      /\ retain_loop keywords cutoff_date
           (client (query_search query_type max_results field keywords)) []
         = Ok papers
      /\ Z.of_nat (List.length l)
         = (if (max_results <? 0)%Z
            then Z.max 0 (Z.of_nat (List.length papers) + max_results)
            else Z.min max_results (Z.of_nat (List.length papers)))
      /\ (forall x, In x l -> In x papers)
      /\ (Z.of_nat (List.length papers) <= max_results ->
          Permutation l papers).
Proof.
  intros client now days query_type max_results field keywords l Hid H.
  destruct (search_mode_inv _ _ _ _ _ _ _ _ Hid H)
    as (c & papers & Hc & Hloop & ->).
  exists c, papers. split; [exact Hc|]. split; [exact Hloop|].
  pose proof (list_sort_permutation tuple_lt sort_key true papers) as HP.
  split; [|split].
  - rewrite slice_to_length, (Permutation_length HP). reflexivity.
  - intros x Hx. apply In_slice_to in Hx.
    apply (In_list_sort tuple_lt sort_key true x papers). exact Hx.
  - intros Hcap. rewrite slice_to_all; [exact HP|].
    rewrite (Permutation_length HP). exact Hcap.
Qed.

Lemma same_key_not_lt (score : Q) (date : string) (a b : paper_dict) :
  Props.same_key score date a = true ->
  Props.same_key score date b = true ->
  tuple_lt (sort_key a) (sort_key b) = false.
Proof.
  unfold Props.same_key. intros Ha Hb.
  apply andb_true_iff in Ha as [Ha1 Ha2], Hb as [Hb1 Hb2].
  apply Qeq_bool_iff in Ha1, Hb1. apply String.eqb_eq in Ha2, Hb2.
  apply tuple_lt_false_iff. right. unfold sort_key. cbn [fst snd]. split.
  - rewrite Ha1, Hb1. reflexivity.
  - rewrite Ha2, Hb2. unfold String.leb.
    destruct (String.compare date date) eqn:E; try reflexivity.
    pose proof (String.compare_antisym date date) as HA.
    rewrite E in HA. discriminate HA.
Qed.

(** X4: when [max_results] does not truncate, the papers that share a
    score and a date come out in the order of retrieval. *)
Theorem search_keeps_order_of_ties :
  forall client now days query_type max_results field keywords l,
    is_identifier query_type = false ->
    search_papers client now days query_type max_results field keywords
    = Ok l ->
    exists cutoff_date papers,
      cutoff now days = Ok cutoff_date
      /\ retain_loop keywords cutoff_date
           (client (query_search query_type max_results field keywords)) []
         = Ok papers
      /\ (Z.of_nat (List.length papers) <= max_results ->
          forall score date,
            filter (Props.same_key score date) l
            = filter (Props.same_key score date) papers).
Proof.
  intros client now days query_type max_results field keywords l Hid H.
  destruct (search_mode_inv _ _ _ _ _ _ _ _ Hid H)
    as (c & papers & Hc & Hloop & ->).
  exists c, papers. split; [exact Hc|]. split; [exact Hloop|].
  intros Hcap score date.
  rewrite slice_to_all.
  - apply list_sort_filter. apply same_key_not_lt.
  - rewrite (Permutation_length
               (list_sort_permutation tuple_lt sort_key true papers)).
    exact Hcap.
Qed.

Lemma retain_loop_throw (kws : list string) (cutoff_date : Z) (e : exn)
    (raw : list Arxiv.Result) :
  forall papers,
    retain_loop (Some kws) cutoff_date
      (Retrieval.yield_then raw (Arxiv.Throw e)) papers
    = Raise e.
Proof.
  induction raw as [|p raw IH]; intros papers;
    cbn [Retrieval.yield_then retain_loop]; [reflexivity|].
  cbn [len].
  destruct ((0 <? Z.of_nat (List.length kws))%Z
            || (cutoff_date <=? Arxiv.published p)%Z); apply IH.
Qed.

(** X5: with a list of keywords and an instant [now - days] that a
    [datetime] can hold, a retrieval that raises after any number of
    records makes the whole search raise that exception: no partial list
    is returned, and the tool answers with the error text. *)
Theorem search_failure_is_total :
  forall client now (args : arguments) kws raw e,
    arg_keywords args = Some kws ->
    let days := get (arg_days args) 7 in
    let query_type := get (arg_query_type args) "moe" in
    let max_results := get (arg_max_results args) 100 in
    let field := arg_field args in
    is_identifier query_type = false ->
    Spec.in_range now days ->
    client (query_search query_type max_results field (Some kws))
    = Retrieval.yield_then raw (Arxiv.Throw e) ->
    search_papers client now days query_type max_results field (Some kws)
    = Raise e
    /\ handle_call_tool client now "papersearch" (Some args)
       = Ok [ {| type := "text"; text := error_marker ++ str_of_exn e |} ].
Proof.
  intros client now args kws raw e Hkw days query_type max_results field
         Hid Hr Hcl.
  assert (Hs : search_papers client now days query_type max_results field
                 (Some kws) = Raise e).
  { rewrite search_papers_search_mode by exact Hid.
    rewrite (cutoff_in_range now days Hr). cbn [bind].
    rewrite Hcl, retain_loop_throw. reflexivity. }
  split; [exact Hs|].
  unfold handle_call_tool. cbn [get negb String.eqb Ascii.eqb Bool.eqb].
  rewrite Hkw. fold days query_type max_results field. rewrite Hs.
  reflexivity.
Qed.

End SearchProperties.

(** ** The query string *)

Section QueryProperties.
Import Py Server.
Local Open Scope string_scope.

Lemma final_query_clauses (query_type : string) (field : option string)
    (keywords : option (list string)) :
  final_query query_type field keywords
  = match (Props.topic_clause query_type ++ Props.field_clause field
           ++ Props.keyword_clause keywords)%list with
    | [] => "*:*"
    | parts => join " AND " parts
    end.
Proof.
  unfold final_query, Props.topic_clause, Props.field_clause,
    Props.keyword_clause.
  destruct (query_type =? "moe inference")%string;
    [|destruct (str_truthy query_type)];
    (destruct field as [f|]; [destruct (str_truthy f)|]);
    destruct keywords as [[|k ks]|]; reflexivity.
Qed.

Lemma prefix_nil (s : string) : String.prefix "" s = true.
Proof. destruct s; reflexivity. Qed.

Lemma join_cons (sep x : string) (l : list string) :
  join sep (x :: l)
  = x ++ match l with [] => "" | _ => sep ++ join sep l end.
Proof. destruct l; cbn [join]; [rewrite append_nil_r|]; reflexivity. Qed.

Lemma join_contains (sep x : string) (parts : list string) :
  In x parts -> exists pre post, join sep parts = pre ++ x ++ post.
Proof.
  induction parts as [|y parts IH]; intros Hx; [destruct Hx|].
  rewrite join_cons. destruct Hx as [-> | Hx].
  - exists "". eexists. reflexivity.
  - destruct parts as [|z parts]; [destruct Hx|].
    destruct (IH Hx) as (pre & post & E). rewrite E.
    exists (y ++ sep ++ pre), post. rewrite !append_assoc. reflexivity.
Qed.

Lemma str_in_trans (a b c : string) :
  str_in a b = true -> str_in b c = true -> str_in a c = true.
Proof.
  rewrite !str_in_spec. intros (p1 & q1 & ->) (p2 & q2 & ->).
  exists (p2 ++ p1), (q1 ++ q2). rewrite !append_assoc. reflexivity.
Qed.

Lemma final_query_contains (query_type : string) (field : option string)
    (keywords : option (list string)) (x : string) :
  In x (Props.topic_clause query_type ++ Props.field_clause field
        ++ Props.keyword_clause keywords)%list ->
  str_in x (final_query query_type field keywords) = true.
Proof.
  intros Hx. rewrite final_query_clauses.
  destruct (Props.topic_clause query_type ++ Props.field_clause field
            ++ Props.keyword_clause keywords)%list as [|y parts] eqn:E;
    [destruct Hx|].
  apply str_in_spec. apply join_contains. exact Hx.
Qed.

(** X13: the query is never empty; it is the match-all query when nothing
    is given; a free-text topic opens it unchanged; the clause of the
    field and the clause of every keyword are in it, with the field and
    the keyword written as they came. *)
Theorem final_query_shape :
  forall (query_type : string) (field : option string)
         (keywords : option (list string)),
    final_query query_type field keywords <> ""
    /\ (query_type = "" -> opt_str_truthy field = false ->
        opt_list_truthy keywords = false ->
        final_query query_type field keywords = "*:*")
    /\ (query_type <> "moe inference" ->
        String.prefix query_type (final_query query_type field keywords)
        = true)
    /\ (forall f, field = Some f -> f <> "" ->
          str_in ("(cat:" ++ dquote ++ f ++ dquote ++ ")")
            (final_query query_type field keywords) = true)
    /\ (forall kws k, keywords = Some kws -> In k kws ->
          str_in (Props.keyword_condition k)
            (final_query query_type field keywords) = true).
Proof.
  intros query_type field keywords. split; [|split; [|split; [|split]]].
  - rewrite final_query_clauses.
    unfold Props.topic_clause, Props.field_clause, Props.keyword_clause.
    destruct (query_type =? "moe inference")%string;
      [|destruct query_type as [|c q]];
      (destruct field as [[|c' f]|]);
      destruct keywords as [[|k ks]|];
      cbn [str_truthy app]; try rewrite join_cons; discriminate.
  - intros -> Hf Hk. rewrite final_query_clauses.
    destruct field as [[|c f]|]; try discriminate;
      destruct keywords as [[|k ks]|]; try discriminate; reflexivity.
  - intros Hq. rewrite final_query_clauses. unfold Props.topic_clause.
    apply String.eqb_neq in Hq. rewrite Hq.
    destruct query_type as [|c q]; cbn [str_truthy app].
    + apply prefix_nil.
    + rewrite join_cons. apply prefix_append.
  - intros f -> Hf. apply final_query_contains.
    apply in_or_app. right. apply in_or_app. left.
    destruct f; [congruence|]. left. reflexivity.
  - intros kws k -> Hk.
    apply (str_in_trans _
             ("(" ++ join " OR " (map Props.keyword_condition kws) ++ ")")).
    + apply str_in_spec.
      destruct (join_contains " OR " (Props.keyword_condition k)
                  (map Props.keyword_condition kws)) as (pre & post & E);
        [apply in_map; exact Hk|].
      exists ("(" ++ pre), (post ++ ")"). rewrite E, !append_assoc.
      reflexivity.
    + apply final_query_contains.
      apply in_or_app. right. apply in_or_app. right.
      destruct kws as [|k0 ks]; [destruct Hk|]. left. reflexivity.
Qed.

End QueryProperties.

(** ** The rendering *)

Section FormatProperties.
Import Py Server.
Local Open Scope string_scope.

Lemma enumerate_map {A B} (f : A -> B) (l : list A) :
  forall start,
    enumerate (map f l) start
    = map (fun ip => (fst ip, f (snd ip))) (enumerate l start).
Proof.
  induction l as [|x l IH]; intros start; cbn [map enumerate];
    [reflexivity | rewrite IH; reflexivity].
Qed.

Lemma format_papers_forget (papers : list paper_dict) :
  format_papers papers false
  = format_papers (map Props.forget_score papers) false.
Proof.
  destruct papers as [|p papers]; [reflexivity|].
  unfold format_papers. cbn [map].
  change (Props.forget_score p :: map Props.forget_score papers)
    with (map Props.forget_score (p :: papers)).
  rewrite enumerate_map, map_map. reflexivity.
Qed.

(** X14: without [show_score] the text does not depend on the scores. *)
Theorem format_papers_hides_scores :
  forall papers papers' : list paper_dict,
    map Props.forget_score papers = map Props.forget_score papers' ->
    format_papers papers false = format_papers papers' false.
Proof.
  intros papers papers' H.
  rewrite (format_papers_forget papers), (format_papers_forget papers'), H.
  reflexivity.
Qed.

Lemma format_papers_starts_with_one (p : paper_dict)
    (papers : list paper_dict) (show_score : bool) :
  exists rest, format_papers (p :: papers) show_score = String "1" rest.
Proof.
  unfold format_papers. cbn [enumerate map fst snd]. rewrite join_cons.
  unfold format_paper at 1. destruct show_score; cbn [list_insert];
    rewrite join_cons; eexists; reflexivity.
Qed.

(** X15: the fixed sentence is the text of the empty list and of no other
    list. *)
Theorem format_papers_sentinel_iff_empty :
  forall (papers : list paper_dict) (show_score : bool),
    format_papers papers show_score = no_papers_text <-> papers = [].
Proof.
  intros papers show_score. split.
  - destruct papers as [|p papers]; [reflexivity|]. intros H.
    destruct (format_papers_starts_with_one p papers show_score) as [rest E].
    rewrite E in H. discriminate H.
  - intros ->. reflexivity.
Qed.

End FormatProperties.

(** ** The tool boundary *)

Section ToolProperties.
Import Py Server.
Local Open Scope string_scope.
Context {S : Str}.

Lemma handle_call_tool_papersearch client now (args : option arguments) :
  handle_call_tool client now "papersearch" args
  = match search_papers client now
            (get (arg_days (get args no_arguments)) 7)
            (get (arg_query_type (get args no_arguments)) "moe")
            (get (arg_max_results (get args no_arguments)) 100)
            (arg_field (get args no_arguments))
            (arg_keywords (get args no_arguments)) with
    | Ok papers =>
        Ok [ {| type := "text"; text := format_papers papers false |} ]
    | Raise e =>
        Ok [ {| type := "text"; text := error_marker ++ str_of_exn e |} ]
    end.
Proof. reflexivity. Qed.

Lemma handle_call_tool_unknown client now (name : string)
    (args : option arguments) :
  name <> "papersearch" ->
  handle_call_tool client now name args
  = Raise (ValueError ("Unknown tool: " ++ name)).
Proof.
  intros H. unfold handle_call_tool.
  apply String.eqb_neq in H. rewrite H. reflexivity.
Qed.

(** X6: a call raises, with the [ValueError] that names the tool, exactly
    when the tool is not in the listing; a listed tool answers with one
    text, whatever the search did. *)
Theorem call_raises_iff_tool_unlisted :
  forall client now (name : string) (args : option arguments),
    (In name (map Listing.name Listing.handle_list_tools) ->
     exists t, handle_call_tool client now name args
               = Ok [ {| type := "text"; text := t |} ])
    /\ (~ In name (map Listing.name Listing.handle_list_tools) ->
        handle_call_tool client now name args
        = Raise (ValueError ("Unknown tool: " ++ name))).
Proof.
  intros client now name args. cbn [map Listing.handle_list_tools Listing.name In].
  split.
  - intros [<- | []]. rewrite handle_call_tool_papersearch.
    destruct (search_papers _ _ _ _ _ _ _); eexists; reflexivity.
  - intros H. apply handle_call_tool_unknown. intros ->. apply H.
    left. reflexivity.
Qed.

(** X8: a tool call whose [query_type] is an identifier never fails on
    the keywords, [None] included: the text is the fixed sentence for a
    miss, the one paper without its score for a hit, the error text when
    the retrieval raises. *)
Theorem tool_identifier_lookup :
  forall client now (args : arguments),
    let query_type := get (arg_query_type args) "moe" in
    is_identifier query_type = true ->
    handle_call_tool client now "papersearch" (Some args)
    = Ok [ {| type := "text";
              text :=
                match client (id_search query_type) with
                | Arxiv.Stop => no_papers_text
                | Arxiv.Yield paper _ =>
                    format_papers [to_dict paper 1%Q] false
                | Arxiv.Throw e => error_marker ++ str_of_exn e
                end |} ].
Proof.
  intros client now args query_type Hid.
  rewrite handle_call_tool_papersearch. cbn [get].
  fold query_type. rewrite search_papers_id_mode by exact Hid.
  destruct (client (id_search query_type)); reflexivity.
Qed.

Lemma fill_defaults_call client now (name : string) (args : arguments)
    (d : Z) :
  handle_call_tool client now name (Some (Listing.fill_defaults d "moe" 100 args))
  = handle_call_tool client now name
      (Some {| arg_days := Some (get (arg_days args) d);
               arg_query_type := arg_query_type args;
               arg_max_results := arg_max_results args;
               arg_field := arg_field args;
               arg_keywords := arg_keywords args |}).
Proof.
  unfold handle_call_tool. cbn [get Listing.fill_defaults arg_days
    arg_query_type arg_max_results arg_field arg_keywords].
  destruct (arg_query_type args), (arg_max_results args); reflexivity.
Qed.

(** X7: the defaults the listing advertises are the ones a call applies,
    except for [days]: the listing says 180, a call without [days] uses
    7, and the two can give different answers. *)
Theorem advertised_defaults_against_applied :
  forall tool, In tool Listing.handle_list_tools ->
    exists d q m,
      Listing.advertised_default tool "days" = Some (Listing.JNumber d)
      /\ Listing.advertised_default tool "query_type"
         = Some (Listing.JString q)
      /\ Listing.advertised_default tool "max_results"
         = Some (Listing.JNumber m)
      /\ Listing.advertised_default tool "field" = Some Listing.JNull
      /\ Listing.advertised_default tool "keywords" = Some Listing.JNull
      /\ (forall client now args,
            arg_days args <> None ->
            handle_call_tool client now (Listing.name tool) (Some args)
            = handle_call_tool client now (Listing.name tool)
                (Some (Listing.fill_defaults d q m args)))
      /\ (forall client now args,
            arg_days args = None ->
            handle_call_tool client now (Listing.name tool) (Some args)
            = handle_call_tool client now (Listing.name tool)
                (Some (Listing.fill_defaults 7 q m args)))
      /\ (exists client now args,
            handle_call_tool client now (Listing.name tool) (Some args)
            <> handle_call_tool client now (Listing.name tool)
                 (Some (Listing.fill_defaults d q m args))).
Proof.
  intros tool [<- | []]. exists 180%Z, "moe", 100%Z.
  do 5 (split; [reflexivity|]). split; [|split].
  - intros client now args Hd. rewrite fill_defaults_call.
    destruct args as [[d|] q m f k];
      [reflexivity | exfalso; apply Hd; reflexivity].
  - intros client now args Hd. rewrite fill_defaults_call.
    destruct args as [[d|] q m f k]; [discriminate Hd | reflexivity].
  - exists (Examples.serve [Examples.dense]),
           (Examples.mar_2021 + 30 * 86400000000)%Z,
           {| arg_days := None; arg_query_type := None;
              arg_max_results := None; arg_field := None;
              arg_keywords := Some [] |}.
    intros H. vm_compute in H. discriminate H.
Qed.

End ToolProperties.

(** ** What the identifier test really asks *)

Section PatternProperties.
Import Py Server Re.
Local Open Scope string_scope.

Lemma matches_digits_elim (n : nat) :
  forall s, matches (Rep n Digit) s ->
            String.length s = n /\ Props.all_digits s = true.
Proof.
  induction n as [|n IH]; intros s H; cbn [Rep] in H.
  - inversion H. split; reflexivity.
  - inversion H as [ | | | r1 r2 s1 s2 H1 H2 | | | | ]; subst.
    inversion H1 as [ | | c Hc | | | | | ]; subst.
    destruct (IH _ H2) as [Hl Hd]. cbn. rewrite Hl, Hc, Hd. split; reflexivity.
Qed.

Lemma matches_digits_intro (n : nat) :
  forall s, String.length s = n -> Props.all_digits s = true ->
            matches (Rep n Digit) s.
Proof.
  induction n as [|n IH]; intros [|c s] Hl Hd; try discriminate; cbn [Rep].
  - constructor.
  - cbn in Hl, Hd. apply andb_true_iff in Hd as [Hc Hd].
    change (String c s) with (String c "" ++ s).
    constructor; [constructor; exact Hc | apply IH; [lia | exact Hd]].
Qed.

(** X16: on a string of ASCII characters the identifier test succeeds
    exactly when the string starts with four digits, a dot and four
    digits: the fifth digit and the version of the pattern decide
    nothing. *)
Theorem is_identifier_iff_prefix :
  forall s : string,
    Props.is_ascii s = true ->
    (is_identifier s = true <-> Props.starts_with_identifier s).
Proof.
  intros s _. unfold Props.starts_with_identifier. split.
  - intros H. unfold is_identifier in H. apply andb_true_iff in H as [_ H].
    apply re_match_sound in H as (p & rest & -> & Hp).
    unfold arxiv_id_pattern in Hp.
    inversion Hp as [ | | | ? ? a t1 Ha Ht1 | | | | ]; subst.
    inversion Ht1 as [ | | | ? ? dot t2 Hdot Ht2 | | | | ]; subst.
    inversion Hdot; subst.
    inversion Ht2 as [ | | | ? ? t3 o2 Ht3 Ho2 | | | | ]; subst.
    inversion Ht3 as [ | | | ? ? b o1 Hb Ho1 | | | | ]; subst.
    destruct (matches_digits_elim 4 _ Ha) as [Hla Hda].
    destruct (matches_digits_elim 4 _ Hb) as [Hlb Hdb].
    exists a, b, (o1 ++ o2 ++ rest).
    split; [|repeat split; assumption].
    rewrite !append_assoc. reflexivity.
  - intros (a & b & rest & -> & Hla & Hda & Hlb & Hdb).
    apply is_identifier_of_match.
    replace (a ++ "." ++ b ++ rest)
      with ((a ++ "." ++ (b ++ "") ++ "") ++ rest)
      by (rewrite !append_nil_r, !append_assoc; reflexivity).
    apply re_match_prefix. unfold arxiv_id_pattern.
    constructor; [apply matches_digits_intro; assumption|].
    constructor; [constructor|].
    constructor.
    + constructor; [apply matches_digits_intro; assumption|].
      apply MAltR. constructor.
    + apply MAltR. constructor.
Qed.

End PatternProperties.

(** ** The properties at work on sample requests *)

Section Witnesses.
Import Py Server.
Local Open Scope string_scope.

Lemma search_papers_order_witness :
  exists l,
    search_papers (Examples.serve [Examples.routing; Examples.dense])
      Examples.nov_2025 7 "moe" 100 None (Some ["moe"]) = Ok l
    /\ List.length l = 2%nat
    /\ StronglySorted Spec.score_asc_then_date_desc l.
Proof.
  eexists. split; [vm_compute; reflexivity|]. split; [reflexivity|].
  apply (search_papers_order
           (Examples.serve [Examples.routing; Examples.dense])
           Examples.nov_2025 7 "moe" 100 None (Some ["moe"]));
    [reflexivity | vm_compute; reflexivity].
Defined.

Lemma keyword_free_search_newest_first_witness :
  exists l,
    search_papers (Examples.serve [Examples.dense; Examples.routing])
      (Examples.mar_2021 + 86400000000)%Z 7 "moe" 100 None (Some [])
    = Ok l
    /\ List.length l = 2%nat
    /\ StronglySorted
         (fun a b => String.leb (published_date b) (published_date a) = true)
         l.
Proof.
  eexists. split; [vm_compute; reflexivity|]. split; [reflexivity|].
  apply (keyword_free_search_newest_first
           (Examples.serve [Examples.dense; Examples.routing])
           (Examples.mar_2021 + 86400000000)%Z 7 "moe" 100 None);
    [reflexivity | vm_compute; reflexivity].
Defined.

Lemma search_result_size_witness :
  exists l,
    search_papers
      (Examples.serve [Examples.routing; Examples.dense; Examples.titled])
      Examples.nov_2025 7 "moe" 2 None (Some ["moe"]) = Ok l
    /\ exists papers,
         List.length papers = 3%nat
         /\ Z.of_nat (List.length l)
            = Z.min 2 (Z.of_nat (List.length papers))
         /\ (forall x, In x l -> In x papers).
Proof.
  eexists. split; [vm_compute; reflexivity|].
  destruct (search_result_size
              (Examples.serve
                 [Examples.routing; Examples.dense; Examples.titled])
              Examples.nov_2025 7 "moe" 2 None (Some ["moe"]) _
              eq_refl eq_refl) as (c & papers & Hc & Hloop & Hlen & Hin & _).
  exists papers. split; [|split; [exact Hlen | exact Hin]].
  vm_compute in Hc. injection Hc as <-.
  vm_compute in Hloop. injection Hloop as <-. reflexivity.
Defined.

Lemma search_keeps_order_of_ties_witness :
  exists l,
    search_papers (Examples.serve [Examples.titled; Examples.dense])
      Examples.nov_2025 7 "moe" 100 None (Some ["quantum"]) = Ok l
    /\ filter (Props.same_key 0 "2021-03-05") l
       = [to_dict Examples.titled 0; to_dict Examples.dense 0].
Proof.
  eexists. split; [vm_compute; reflexivity|].
  destruct (search_keeps_order_of_ties
              (Examples.serve [Examples.titled; Examples.dense])
              Examples.nov_2025 7 "moe" 100 None (Some ["quantum"]) _
              eq_refl eq_refl) as (c & papers & Hc & Hloop & Hties).
  vm_compute in Hc. injection Hc as <-. injection Hloop as <-.
  assert (Hcap : (Z.of_nat (List.length
                              [to_dict Examples.titled
                                 (calculate_relevance_score Examples.titled
                                    (Some ["quantum"]));
                               to_dict Examples.dense
                                 (calculate_relevance_score Examples.dense
                                    (Some ["quantum"]))]) <= 100)%Z)
    by (vm_compute; discriminate).
  exact (Hties Hcap 0%Q "2021-03-05").
Defined.

Lemma search_failure_is_total_witness :
  handle_call_tool
    (Props.failing_after [Examples.routing] (Exception "HTTP 503"))
    Examples.nov_2025 "papersearch" (Some (Props.only_keywords ["moe"]))
  = Ok [ {| type := "text"; text := error_marker ++ "HTTP 503" |} ].
Proof.
  destruct (search_failure_is_total
              (Props.failing_after [Examples.routing] (Exception "HTTP 503"))
              Examples.nov_2025 (Props.only_keywords ["moe"]) ["moe"]
              [Examples.routing] (Exception "HTTP 503")
              eq_refl eq_refl) as (_ & H).
  - unfold Spec.in_range, Spec.day, Examples.nov_2025.
    cbn [get arg_days Props.only_keywords]. lia.
  - reflexivity.
  - exact H.
Defined.

Lemma call_raises_iff_tool_unlisted_witness :
  handle_call_tool (Examples.serve []) Examples.nov_2025 "summarize" None
  = Raise (ValueError "Unknown tool: summarize")
  /\ exists t,
       handle_call_tool (Examples.serve []) Examples.nov_2025 "papersearch"
         None = Ok [ {| type := "text"; text := t |} ].
Proof.
  split.
  - destruct (call_raises_iff_tool_unlisted (Examples.serve [])
                Examples.nov_2025 "summarize" None) as (_ & H).
    apply H. intros [E | []]. discriminate E.
  - destruct (call_raises_iff_tool_unlisted (Examples.serve [])
                Examples.nov_2025 "papersearch" None) as (H & _).
    apply H. left. reflexivity.
Defined.

Lemma advertised_defaults_against_applied_witness :
  exists tool d,
    In tool Listing.handle_list_tools
    /\ Listing.advertised_default tool "days" = Some (Listing.JNumber d)
    /\ d <> 7%Z.
Proof.
  eexists.
  destruct (advertised_defaults_against_applied _ (or_introl eq_refl))
    as (d & q & m & Hd & _).
  exists d. split; [left; reflexivity|]. split; [exact Hd|].
  vm_compute in Hd. injection Hd as <-. discriminate.
Defined.

Lemma score_zero_and_one_witness :
  calculate_relevance_score Examples.dense (Some ["moe"; "inference"]) = 0%Q.
Proof.
  destruct (score_zero_and_one Examples.dense ["moe"; "inference"])
    as (H & _); [discriminate|].
  apply H. intros k [<- | [<- | []]];
    split; apply not_occurs_ci_test; reflexivity.
Defined.

Lemma score_ignores_case_witness :
  calculate_relevance_score Examples.routing (Some ["MOE"; "Inference"])
  = calculate_relevance_score Examples.routing (Some ["moe"; "inference"]).
Proof.
  apply (score_ignores_case Examples.routing Examples.routing
           ["MOE"; "Inference"] ["moe"; "inference"]); reflexivity.
Defined.

Lemma score_ignores_keyword_order_witness :
  calculate_relevance_score Examples.routing (Some ["inference"; "moe"])
  = calculate_relevance_score Examples.routing (Some ["moe"; "inference"]).
Proof.
  apply (score_ignores_keyword_order Examples.routing
           ["inference"; "moe"] ["moe"; "inference"]).
  apply perm_swap.
Defined.

Lemma final_query_shape_witness :
  final_query "" None (Some []) = "*:*"
  /\ String.prefix "sparse experts"
       (final_query "sparse experts" (Some "cs.LG") (Some ["moe"])) = true
  /\ str_in ("(cat:" ++ dquote ++ "cs.LG" ++ dquote ++ ")")
       (final_query "sparse experts" (Some "cs.LG") (Some ["moe"])) = true
  /\ str_in (Props.keyword_condition "moe")
       (final_query "sparse experts" (Some "cs.LG") (Some ["moe"])) = true.
Proof.
  destruct (final_query_shape "" None (Some [])) as (_ & H1 & _).
  destruct (final_query_shape "sparse experts" (Some "cs.LG") (Some ["moe"]))
    as (_ & _ & H2 & H3 & H4).
  split; [apply H1; reflexivity|].
  split; [apply H2; discriminate|].
  split; [apply (H3 "cs.LG"); [reflexivity | discriminate]|].
  apply (H4 ["moe"] "moe"); [reflexivity | left; reflexivity].
Defined.

Lemma format_papers_hides_scores_witness :
  format_papers [to_dict Examples.routing (1 # 2)] false
  = format_papers [to_dict Examples.routing 1] false.
Proof.
  apply (format_papers_hides_scores
           [to_dict Examples.routing (1 # 2)] [to_dict Examples.routing 1]).
  reflexivity.
Defined.

Lemma format_papers_sentinel_iff_empty_witness :
  format_papers [to_dict Examples.routing 1] true <> no_papers_text.
Proof.
  intros H.
  apply (format_papers_sentinel_iff_empty [to_dict Examples.routing 1] true)
    in H.
  discriminate H.
Defined.

Lemma is_identifier_iff_prefix_witness :
  is_identifier "2103.0340x" = true.
Proof.
  apply (is_identifier_iff_prefix "2103.0340x"); [reflexivity|].
  exists "2103", "0340", "x". repeat split.
Defined.

Lemma tool_identifier_lookup_witness :
  handle_call_tool (Examples.serve []) Examples.nov_2025 "papersearch"
    (Some (Props.only_query_type "2103.03404"))
  = Ok [ {| type := "text"; text := no_papers_text |} ].
Proof.
  apply (tool_identifier_lookup (Examples.serve []) Examples.nov_2025
           (Props.only_query_type "2103.03404")).
  reflexivity.
Defined.

End Witnesses.
